(** * oasislmf.model_execution.bin: run-directory preparation, input checks,
      binary conversion, archive check and clean-up

    A shallow embedding of [src/oasislmf/model_execution/bin.py].

    - Python [str] values are [string]s of 8-bit characters.
    - The functions of [bin.py] are programs of a small free monad [prog]
      whose operations are the library calls the Python code makes
      ([os.path.exists], [shutil.move], [tarfile.open], ...), named after
      them.  [try]/[except] is [try_except].
    - The operating system is a model: a tree of directories, files and
      symbolic links with POSIX path resolution, a working directory, a table
      of executables, and a flag telling whether the platform can create
      symbolic links.  [exec] runs a program on a [world] and returns the
      calls made, the result (a value or the exception raised) and the final
      world.
    - The registry of [oasislmf/model_execution/files.py] ([TAR_FILE],
      [INPUT_FILES], [GUL_INPUT_FILES], [IL_INPUT_FILES]) is not part of this
      file of the repository; it is a parameter of the development.  A
      registry dict is the list of its items in iteration order.
    - Exceptions follow Python 3: [IOError] is [OSError], the errors of
      [shutil] are [OSError]s, [tarfile.ReadError] is not.  The shell is
      modelled on commands of the shape [tool < input > output] whose three
      parts have no blank and no shell metacharacter. *)

From Stdlib Require Import ZArith Ascii String List Bool Lia.
From stdpp Require Import base tactics option list gmap strings.

Local Open Scope string_scope.
Local Open Scope list_scope.

(** ** Python strings *)

Module Str.

Fixpoint startswith (pre s : string) : bool :=
  match pre, s with
  | EmptyString, _ => true
  | String a pre', String b s' => Ascii.eqb a b && startswith pre' s'
  | String _ _, EmptyString => false
  end.

(** [endswith "/" s] *)
Fixpoint ends_slash (s : string) : bool :=
  match s with
  | EmptyString => false
  | String c EmptyString => Ascii.eqb c "/"
  | String _ s' => ends_slash s'
  end.

(** [sub in s] *)
Fixpoint contains (sub s : string) : bool :=
  startswith sub s ||
  match s with
  | EmptyString => false
  | String _ s' => contains sub s'
  end.

(** [s.replace(old, new)] for one-character [old] and [new] *)
Fixpoint replace (old new : ascii) (s : string) : string :=
  match s with
  | EmptyString => EmptyString
  | String c s' => String (if Ascii.eqb c old then new else c) (replace old new s')
  end.

Definition lower_char (c : ascii) : ascii :=
  let n := nat_of_ascii c in
  if (65 <=? n)%nat && (n <=? 90)%nat then ascii_of_nat (n + 32) else c.

(** [s.lower()] on 8-bit strings: only [A]-[Z] change *)
Fixpoint lower (s : string) : string :=
  match s with
  | EmptyString => EmptyString
  | String c s' => String (lower_char c) (lower s')
  end.

(** [s.split('/')] *)
Fixpoint split_slash (s : string) : list string :=
  match s with
  | EmptyString => [EmptyString]
  | String c s' =>
      if Ascii.eqb c "/" then EmptyString :: split_slash s'
      else match split_slash s' with
           | w :: ws => String c w :: ws
           | [] => [String c EmptyString]
           end
  end.

(** the first occurrence of [sep] cuts [s] in two *)
Fixpoint split_once (sep s : string) : option (string * string) :=
  if startswith sep s then Some (EmptyString, String.substring (String.length sep) (String.length s) s)
  else match s with
       | EmptyString => None
       | String c s' =>
           match split_once sep s' with
           | Some (a, b) => Some (String c a, b)
           | None => None
           end
       end.

Definition is_digit (c : ascii) : bool :=
  let n := nat_of_ascii c in (48 <=? n)%nat && (n <=? 57)%nat.

Definition newline : ascii := ascii_of_nat 10.

End Str.

(** ** [re.match(r'RI_\d+$', p)]

    One or more digits after [RI_], up to the end of the string; [$] also
    matches just before a final newline. *)

Fixpoint re_digits_end (s : string) : bool :=
  match s with
  | EmptyString => true
  | String c s' =>
      (Str.is_digit c && re_digits_end s') ||
      (Ascii.eqb c Str.newline && String.eqb s' EmptyString)
  end.

Definition re_match_RI (p : string) : bool :=
  match p with
  | String r (String i (String u (String c s'))) =>
      Ascii.eqb "R" r && Ascii.eqb "I" i && Ascii.eqb "_" u
      && Str.is_digit c && re_digits_end s'
  | _ => false
  end.

(** ** [os.path] (posixpath) *)

Definition os_path_join (a b : string) : string :=
  if Str.startswith "/" b then b
  else if String.eqb a "" || Str.ends_slash a then a +:+ b
  else a +:+ "/" +:+ b.

Fixpoint all_slashes (s : string) : bool :=
  match s with
  | EmptyString => true
  | String c s' => Ascii.eqb c "/" && all_slashes s'
  end.

Fixpoint rstrip_slash (s : string) : string :=
  match s with
  | EmptyString => EmptyString
  | String c s' =>
      let r := rstrip_slash s' in
      if String.eqb r "" && Ascii.eqb c "/" then EmptyString else String c r
  end.

(** [(p[:i], p[i:])] for [i = p.rfind('/') + 1], when [p] has a slash *)
Fixpoint cut_last_slash (p : string) : option (string * string) :=
  match p with
  | EmptyString => None
  | String c p' =>
      match cut_last_slash p' with
      | Some (h, t) => Some (String c h, t)
      | None => if Ascii.eqb c "/" then Some ("/", p') else None
      end
  end.

Definition os_path_split (p : string) : string * string :=
  match cut_last_slash p with
  | None => ("", p)
  | Some (head, tail) => (if all_slashes head then head else rstrip_slash head, tail)
  end.

Definition os_path_basename (p : string) : string := snd (os_path_split p).
Definition os_path_dirname (p : string) : string := fst (os_path_split p).

Definition join_slash (comps : list string) : string :=
  match comps with
  | [] => ""
  | c :: cs => fold_left (fun acc x => acc +:+ "/" +:+ x) cs c
  end.

Definition normpath_step (initial_slashes : bool) (new_comps : list string) (comp : string)
  : list string :=
  if String.eqb comp "" || String.eqb comp "." then new_comps
  else if negb (String.eqb comp "..")
          || (negb initial_slashes && match new_comps with [] => true | _ => false end)
          || match last new_comps with Some l => String.eqb l ".." | None => false end
       then new_comps ++ [comp]
       else removelast new_comps.

Definition os_path_normpath (path : string) : string :=
  if String.eqb path "" then "."
  else
    let initial_slashes := Str.startswith "/" path in
    let two := Str.startswith "//" path && negb (Str.startswith "///" path) in
    let new_comps := fold_left (normpath_step initial_slashes) (Str.split_slash path) [] in
    let path' := join_slash new_comps in
    let path' := if initial_slashes then (if two then "//" else "/") +:+ path' else path' in
    if String.eqb path' "" then "." else path'.


(** ** [glob] and [fnmatch] patterns *)

Definition magic_char (c : ascii) : bool :=
  Ascii.eqb c "*" || Ascii.eqb c "?" || Ascii.eqb c "[".

Fixpoint has_magic (s : string) : bool :=
  match s with
  | EmptyString => false
  | String c s' => magic_char c || has_magic s'
  end.

Inductive gtok :=
| GStar
| GAny
| GSet (neg : bool) (body : string)
| GLit (c : ascii).

(** the text of a bracket expression and what follows its closing bracket;
    [first] is true where a closing bracket still stands for itself *)
Fixpoint bracket_body (first : bool) (s : string) : option (string * string) :=
  match s with
  | EmptyString => None
  | String c s' =>
      if Ascii.eqb c "]" && negb first then Some ("", s')
      else match bracket_body false s' with
           | Some (b, r) => Some (String c b, r)
           | None => None
           end
  end.

Definition bracket (s : string) : option (bool * string * string) :=
  match s with
  | String "!" s' =>
      match bracket_body true s' with
      | Some (b, r) => Some (true, b, r)
      | None => None
      end
  | _ =>
      match bracket_body true s with
      | Some (b, r) => Some (false, b, r)
      | None => None
      end
  end.

(** [fnmatch.translate], as tokens *)
Fixpoint glob_tokens (fuel : nat) (pat : string) : list gtok :=
  match fuel with
  | O => []
  | S fuel =>
      match pat with
      | EmptyString => []
      | String c r =>
          if Ascii.eqb c "*" then GStar :: glob_tokens fuel r
          else if Ascii.eqb c "?" then GAny :: glob_tokens fuel r
          else if Ascii.eqb c "[" then
            match bracket r with
            | Some (neg, body, rest) => GSet neg body :: glob_tokens fuel rest
            | None => GLit c :: glob_tokens fuel r
            end
          else GLit c :: glob_tokens fuel r
      end
  end.

Fixpoint class_mem (c : ascii) (body : string) : bool :=
  match body with
  | EmptyString => false
  | String lo (String "-" (String hi r)) =>
      ((nat_of_ascii lo <=? nat_of_ascii c)%nat && (nat_of_ascii c <=? nat_of_ascii hi)%nat)
      || class_mem c r
  | String x r => Ascii.eqb x c || class_mem c r
  end.

(** some suffix of [s] is matched by [m] *)
Fixpoint some_suffix (m : string -> bool) (s : string) : bool :=
  m s ||
  match s with
  | EmptyString => false
  | String _ s' => some_suffix m s'
  end.

Fixpoint tokens_match (ts : list gtok) (s : string) : bool :=
  match ts with
  | [] => String.eqb s ""
  | GStar :: ts' => some_suffix (tokens_match ts') s
  | GAny :: ts' =>
      match s with
      | String _ s' => tokens_match ts' s'
      | EmptyString => false
      end
  | GSet neg body :: ts' =>
      match s with
      | String c s' => xorb neg (class_mem c body) && tokens_match ts' s'
      | EmptyString => false
      end
  | GLit a :: ts' =>
      match s with
      | String c s' => Ascii.eqb a c && tokens_match ts' s'
      | EmptyString => false
      end
  end.

Definition fnmatch (name pat : string) : bool :=
  tokens_match (glob_tokens (String.length pat) pat) name.

Definition is_hidden (name : string) : bool := Str.startswith "." name.

(** ** The file system

    A file holds bytes or, when it is a tar archive, its members in archive
    order.  A directory maps names to nodes.  A symbolic link holds its
    target as written. *)

Inductive tar_entry :=
| TarDir
| TarFile (content : string).

Inductive data :=
| Bytes (s : string)
| TarBall (members : list (string * tar_entry)).

#[warnings="-register-all"]
Inductive node :=
| File (d : data)
| Dir (entries : gmap string node)
| Link (target : string).

Inductive errno := ENOENT | EEXIST | ENOTDIR | EISDIR | EINVAL.

(** what a library call can raise *)
Inductive cause :=
| OSError (e : errno) (path : string)
| ReadError (path : string)
| NotSupported (what : string)
| CalledProcessError (returncode : Z) (cmd : string).

Inductive exn :=
| Raised (c : cause)
| OasisException (msg : string)
| OasisExceptionFrom (c : cause).

Record world := World {
  root : gmap string node;
  cwd : string;
  symlinks : bool;
  tools : string -> option (data -> Z * string)
}.

Module FS.

Definition MAXSYMLINKS : nat := 40.

(** the node at a physical path: no link is followed *)
Fixpoint lookup_phys (p : list string) (n : node) : option node :=
  match p with
  | [] => Some n
  | c :: p' =>
      match n with
      | Dir m => m !! c ≫= lookup_phys p'
      | _ => None
      end
  end.

(** replace ([Some]) or remove ([None]) the entry at a physical path *)
Fixpoint set_at (p : list string) (v : option node) (n : node) : node :=
  match p with
  | [] => n
  | c :: p' =>
      match n with
      | Dir m =>
          Dir (partial_alter
                 (fun o => match p' with [] => v | _ :: _ => set_at p' v <$> o end) c m)
      | _ => n
      end
  end.

Section Walk.
Variable t : node.
(** [follow]: a link in last position is followed ([stat]) or returned
    ([lstat]); [creat]: a missing last component is accepted *)
Variables follow creat : bool.
Variable via_link : list string -> list string -> option (list string).

Definition is_nil (l : list string) : bool :=
  match l with [] => true | _ => false end.

Fixpoint walk_with (stack todo : list string) : option (list string) :=
  match todo with
  | [] => Some stack
  | c :: rest =>
      match lookup_phys stack t with
      | Some (Dir _) =>
          if String.eqb c "" || String.eqb c "." then walk_with stack rest
          else if String.eqb c ".." then walk_with (removelast stack) rest
          else
            match lookup_phys (stack ++ [c]) t with
            | Some (Link target) =>
                if is_nil rest && negb follow then Some (stack ++ [c])
                else via_link (if Str.startswith "/" target then [] else stack)
                              (Str.split_slash target ++ rest)
            | Some _ => walk_with (stack ++ [c]) rest
            | None => if is_nil rest && creat then Some (stack ++ [c]) else None
            end
      | _ => None
      end
  end.
End Walk.

(** path resolution; [links] bounds the number of links followed *)
Fixpoint walk (links : nat) (t : node) (follow creat : bool)
         (stack todo : list string) : option (list string) :=
  match links with
  | O => walk_with t follow creat (fun _ _ => None) stack todo
  | S l => walk_with t follow creat (walk l t follow creat) stack todo
  end.

Definition tree (w : world) : node := Dir (root w).

Definition resolve (w : world) (follow creat : bool) (p : string) : option (list string) :=
  if String.eqb p "" then None
  else walk MAXSYMLINKS (tree w) follow creat [] (Str.split_slash (os_path_join (cwd w) p)).

Definition stat (w : world) (p : string) : option node :=
  resolve w true false p ≫= fun q => lookup_phys q (tree w).

Definition lstat (w : world) (p : string) : option node :=
  resolve w false false p ≫= fun q => lookup_phys q (tree w).

Definition exists_ (w : world) (p : string) : bool :=
  match stat w p with Some _ => true | None => false end.

Definition lexists (w : world) (p : string) : bool :=
  match lstat w p with Some _ => true | None => false end.

Definition isdir (w : world) (p : string) : bool :=
  match stat w p with Some (Dir _) => true | _ => false end.

Definition put (w : world) (q : list string) (v : option node) : world :=
  match set_at q v (tree w) with
  | Dir m => World m (cwd w) (symlinks w) (tools w)
  | _ => w
  end.

Definition listdir (w : world) (p : string) : cause + list string :=
  match stat w p with
  | Some (Dir m) => inr (map_to_list m).*1
  | Some _ => inl (OSError ENOTDIR p)
  | None => inl (OSError ENOENT p)
  end.

(** [os.mkdir] *)
Definition mkdir (w : world) (p : string) : (cause + unit) * world :=
  match resolve w false true p with
  | None => (inl (OSError ENOENT p), w)
  | Some q =>
      match lookup_phys q (tree w) with
      | Some _ => (inl (OSError EEXIST p), w)
      | None => (inr tt, put w q (Some (Dir ∅)))
      end
  end.

(** the proper prefixes of a path and the path itself, shortest first *)
Fixpoint prefixes (acc : option string) (comps : list string) : list string :=
  match comps with
  | [] => []
  | c :: cs =>
      let here := match acc with None => c | Some a => a +:+ "/" +:+ c end in
      (if String.eqb c "" then [] else [here]) ++ prefixes (Some here) cs
  end.

Fixpoint mkdir_each (w : world) (ps : list string) : (cause + unit) * world :=
  match ps with
  | [] => (inr tt, w)
  | p :: ps' =>
      if isdir w p then mkdir_each w ps'
      else match mkdir w p with
           | (inr _, w') => mkdir_each w' ps'
           | bad => bad
           end
  end.

(** [os.makedirs(p, exist_ok=True)], [Path(p).mkdir(parents=True,
    exist_ok=True)]: every missing ancestor is created, then [p] *)
Definition mkdir_parents (w : world) (p : string) : (cause + unit) * world :=
  if String.eqb p "" then (inl (OSError ENOENT p), w)
  else mkdir_each w (prefixes None (Str.split_slash p)).

(** [os.remove] *)
Definition remove (w : world) (p : string) : (cause + unit) * world :=
  match resolve w false false p with
  | None => (inl (OSError ENOENT p), w)
  | Some q =>
      match lookup_phys q (tree w) with
      | Some (Dir _) => (inl (OSError EISDIR p), w)
      | Some _ => (inr tt, put w q None)
      | None => (inl (OSError ENOENT p), w)
      end
  end.

(** [os.symlink(src, dst)] *)
Definition symlink (w : world) (src dst : string) : (cause + unit) * world :=
  if negb (symlinks w) then (inl (NotSupported "os.symlink"), w)
  else if String.eqb src "" then (inl (OSError ENOENT dst), w)
  else
    match resolve w false true dst with
    | None => (inl (OSError ENOENT dst), w)
    | Some q =>
        match lookup_phys q (tree w) with
        | Some _ => (inl (OSError EEXIST dst), w)
        | None => (inr tt, put w q (Some (Link src)))
        end
    end.

(** [open(p, 'wb').write(d)] *)
Definition write (w : world) (p : string) (d : data) : (cause + unit) * world :=
  match resolve w true true p with
  | None => (inl (OSError ENOENT p), w)
  | Some q =>
      match lookup_phys q (tree w) with
      | Some (Dir _) => (inl (OSError EISDIR p), w)
      | _ => (inr tt, put w q (Some (File d)))
      end
  end.

(** [shutil.copyfile(src, dst)] *)
Definition copyfile (w : world) (src dst : string) : (cause + unit) * world :=
  match resolve w true false src with
  | None => (inl (OSError ENOENT src), w)
  | Some q =>
      match lookup_phys q (tree w) with
      | Some (File d) =>
          if bool_decide (resolve w true true dst = Some q)
          then (inl (OSError EINVAL dst), w)
          else write w dst d
      | Some (Dir _) => (inl (OSError EISDIR src), w)
      | _ => (inl (OSError ENOENT src), w)
      end
  end.

(** [shutil.copy2(src, dst)]; file metadata is not part of the model *)
Definition copy2 (w : world) (src dst : string) : (cause + unit) * world :=
  copyfile w src (if isdir w dst then os_path_join dst (os_path_basename src) else dst).

(** [shutil.copytree(src, dst)]: [src] must be a directory and [dst] must
    not exist; missing ancestors of [dst] are created.  Links inside the
    copied tree stay links in the copy. *)
Definition copytree (w : world) (src dst : string) : (cause + unit) * world :=
  match stat w src with
  | Some (Dir m) =>
      if lexists w dst then (inl (OSError EEXIST dst), w)
      else
        match (if String.eqb (os_path_dirname dst) "" then (inr tt, w)
               else mkdir_parents w (os_path_dirname dst)) with
        | (inr _, w1) =>
            match resolve w1 false true dst with
            | Some q => (inr tt, put w1 q (Some (Dir m)))
            | None => (inl (OSError ENOENT dst), w1)
            end
        | bad => bad
        end
  | Some _ => (inl (OSError ENOTDIR src), w)
  | None => (inl (OSError ENOENT src), w)
  end.

(** [os.rename(src, dst)] onto a free name or over a non-directory *)
Definition rename (w : world) (src dst : string) : (cause + unit) * world :=
  match resolve w false false src, resolve w false true dst with
  | Some qs, Some qd =>
      match lookup_phys qs (tree w) with
      | None => (inl (OSError ENOENT src), w)
      | Some n =>
          if bool_decide (qs = qd) then (inr tt, w)
          else if bool_decide (qs `prefix_of` qd) then (inl (OSError EINVAL dst), w)
          else
            match lookup_phys qd (tree w), n with
            | Some (Dir _), _ => (inl (OSError EEXIST dst), w)
            | Some _, Dir _ => (inl (OSError ENOTDIR dst), w)
            | _, _ => (inr tt, put (put w qs None) qd (Some n))
            end
      end
  | _, _ => (inl (OSError ENOENT src), w)
  end.

(** [shutil.move(src, dst)] on one device *)
Definition move (w : world) (src dst : string) : (cause + unit) * world :=
  if isdir w dst then
    if bool_decide (is_Some (resolve w true false src)
                    ∧ resolve w true false src = resolve w true false dst)
    then rename w src dst
    else
      let real_dst := os_path_join dst (os_path_basename (rstrip_slash src)) in
      if exists_ w real_dst then (inl (OSError EEXIST real_dst), w)
      else rename w src real_dst
  else rename w src dst.

(** [tarfile.open(p)]: the members of the archive *)
Definition tar_open (w : world) (p : string) : cause + list (string * tar_entry) :=
  match stat w p with
  | Some (File (TarBall ms)) => inr ms
  | Some (File (Bytes _)) => inl (ReadError p)
  | Some _ => inl (OSError EISDIR p)
  | None => inl (OSError ENOENT p)
  end.

Definition extract_member (w : world) (dst : string) (m : string * tar_entry)
  : (cause + unit) * world :=
  let targetpath := rstrip_slash (os_path_join dst (fst m)) in
  let upperdirs := os_path_dirname targetpath in
  match (if negb (String.eqb upperdirs "") && negb (exists_ w upperdirs)
         then mkdir_parents w upperdirs else (inr tt, w)) with
  | (inr _, w1) =>
      match snd m with
      | TarDir =>
          match mkdir w1 targetpath with
          | (inl (OSError EEXIST _), _) => (inr tt, w1)
          | r => r
          end
      | TarFile s => write w1 targetpath (Bytes s)
      end
  | bad => bad
  end.

(** [TarFile.extractall(path=dst)] *)
Fixpoint extractall (w : world) (ms : list (string * tar_entry)) (dst : string)
  : (cause + unit) * world :=
  match ms with
  | [] => (inr tt, w)
  | m :: ms' =>
      match extract_member w dst m with
      | (inr _, w') => extractall w' ms' dst
      | bad => bad
      end
  end.

(** the shell on [tool < input > output]: the input is opened, then the
    output is created or truncated, then the tool runs; the result is the
    exit status *)
Definition shell (w : world) (cmd : string) : Z * world :=
  match Str.split_once " < " cmd with
  | None => (2%Z, w)
  | Some (tool, rest) =>
      match Str.split_once " > " rest with
      | None => (2%Z, w)
      | Some (input, output) =>
          match stat w input with
          | None => (1%Z, w)
          | Some n =>
              match write w output (Bytes "") with
              | (inl _, _) => (1%Z, w)
              | (inr _, w1) =>
                  match tools w tool with
                  | None => (127%Z, w1)
                  | Some run =>
                      let '(rc, out) :=
                        run (match n with File d => d | _ => Bytes "" end) in
                      (rc, snd (write w1 output (Bytes out)))
                  end
              end
          end
      end
  end.

End FS.

(** ** Programs

    The library calls of [bin.py]; [resp] is what each returns. *)

Inductive call :=
| os_path_exists (p : string)
| os_path_lexists (p : string)
| os_path_isdir (p : string)
| os_getcwd
| os_listdir (p : string)
| os_mkdir (p : string)
| os_remove (p : string)
| os_symlink (src dst : string)
| Path_mkdir (p : string)
| shutil_move (src dst : string)
| shutil_copy2 (src dst : string)
| shutil_copyfile (src dst : string)
| shutil_copytree (src dst : string)
| tarfile_open (p : string)
| tarfile_extractall (members : list (string * tar_entry)) (path : string)
| subprocess_call (cmd : string).

Definition resp (c : call) : Type :=
  match c with
  | os_path_exists _ | os_path_lexists _ | os_path_isdir _ => bool
  | os_getcwd => string
  | os_listdir _ => cause + list string
  | tarfile_open _ => cause + list (string * tar_entry)
  | subprocess_call _ => Z
  | _ => cause + unit
  end.

Inductive prog (A : Type) : Type :=
| Ret (a : A)
| Raise (e : exn)
| Call (c : call) (k : resp c -> prog A).

Arguments Ret {A} a.
Arguments Raise {A} e.
Arguments Call {A} c k.

Fixpoint bind {A B : Type} (m : prog A) (f : A -> prog B) : prog B :=
  match m with
  | Ret a => f a
  | Raise e => Raise e
  | Call c k => Call c (fun r => bind (k r) f)
  end.

Declare Scope prog_scope.
Delimit Scope prog_scope with prog.
Bind Scope prog_scope with prog.
Notation "x <- m ;; k" := (bind m (fun x => k))
  (at level 100, m at next level, right associativity) : prog_scope.
Notation "m ;; k" := (bind m (fun _ => k))
  (at level 100, right associativity) : prog_scope.
Local Open Scope prog_scope.

(** [try: m / except: h]; [h e = None] when no clause matches [e] *)
Fixpoint try_except {A : Type} (m : prog A) (h : exn -> option (prog A)) : prog A :=
  match m with
  | Ret a => Ret a
  | Raise e => match h e with Some m' => m' | None => Raise e end
  | Call c k => Call c (fun r => try_except (k r) h)
  end.

(** [for x in xs: body x] *)
Fixpoint for_each {X : Type} (xs : list X) (body : X -> prog unit) : prog unit :=
  match xs with
  | [] => Ret tt
  | x :: xs' => body x ;; for_each xs' body
  end.

(** a call that returns *)
Definition ask (c : call) : prog (resp c) := Call c Ret.

(** a call that returns or raises *)
Definition lift {X : Type} (r : cause + X) : prog X :=
  match r with
  | inl e => Raise (Raised e)
  | inr x => Ret x
  end.

Definition exists_ (p : string) : prog bool := ask (os_path_exists p).
Definition lexists (p : string) : prog bool := ask (os_path_lexists p).
Definition isdir (p : string) : prog bool := ask (os_path_isdir p).
Definition getcwd : prog string := ask os_getcwd.
Definition listdir (p : string) : prog (list string) := Call (os_listdir p) lift.
Definition mkdir (p : string) : prog unit := Call (os_mkdir p) lift.
Definition remove (p : string) : prog unit := Call (os_remove p) lift.
Definition symlink (src dst : string) : prog unit := Call (os_symlink src dst) lift.
Definition mkdir_parents_exist_ok (p : string) : prog unit := Call (Path_mkdir p) lift.
Definition move (src dst : string) : prog unit := Call (shutil_move src dst) lift.
Definition copy2 (src dst : string) : prog unit := Call (shutil_copy2 src dst) lift.
Definition copyfile (src dst : string) : prog unit := Call (shutil_copyfile src dst) lift.
Definition copytree (src dst : string) : prog unit := Call (shutil_copytree src dst) lift.
Definition tar_open (p : string) : prog (list (string * tar_entry)) :=
  Call (tarfile_open p) lift.
Definition extractall (ms : list (string * tar_entry)) (path : string) : prog unit :=
  Call (tarfile_extractall ms path) lift.

(** [subprocess.check_call(cmd, stderr=subprocess.STDOUT, shell=True)] *)
Definition check_call (cmd : string) : prog unit :=
  Call (subprocess_call cmd)
       (fun rc : Z => if (rc =? 0)%Z then Ret tt
                      else Raise (Raised (CalledProcessError rc cmd))).

(** ** Running a program *)

Definition handle (c : call) (w : world) : resp c * world :=
  match c with
  | os_path_exists p => (FS.exists_ w p, w)
  | os_path_lexists p => (FS.lexists w p, w)
  | os_path_isdir p => (FS.isdir w p, w)
  | os_getcwd => (cwd w, w)
  | os_listdir p => (FS.listdir w p, w)
  | os_mkdir p => FS.mkdir w p
  | os_remove p => FS.remove w p
  | os_symlink src dst => FS.symlink w src dst
  | Path_mkdir p => FS.mkdir_parents w p
  | shutil_move src dst => FS.move w src dst
  | shutil_copy2 src dst => FS.copy2 w src dst
  | shutil_copyfile src dst => FS.copyfile w src dst
  | shutil_copytree src dst => FS.copytree w src dst
  | tarfile_open p => (FS.tar_open w p, w)
  | tarfile_extractall ms path => FS.extractall w ms path
  | subprocess_call cmd => FS.shell w cmd
  end.

Record outcome (A : Type) := Outcome {
  calls : list call;
  result : exn + A;
  final : world
}.

Arguments Outcome {A} calls result final.
Arguments calls {A} o.
Arguments result {A} o.
Arguments final {A} o.

Fixpoint exec {A : Type} (m : prog A) (w : world) : outcome A :=
  match m with
  | Ret a => Outcome [] (inr a) w
  | Raise e => Outcome [] (inl e) w
  | Call c k =>
      let r := handle c w in
      let o := exec (k (fst r)) (snd r) in
      Outcome (c :: calls o) (result o) (final o)
  end.


Definition returns {A : Type} (o : outcome A) : Prop :=
  match result o with inl _ => False | inr _ => True end.

(** ** [os.path.abspath] *)

Definition os_path_abspath (path : string) : prog string :=
  if negb (Str.startswith "/" path) then
    cwd <- getcwd ;; Ret (os_path_normpath (os_path_join cwd path))
  else Ret (os_path_normpath path).

(** ** [glob.glob] *)

Definition glob1 (dirname pattern : string) : prog (list string) :=
  let dirname := if String.eqb dirname "" then "." else dirname in
  r <- ask (os_listdir dirname) ;;
  match r with
  | inl _ => Ret []
  | inr names =>
      let names :=
        if negb (Str.startswith "." pattern)
        then filter (fun x => negb (is_hidden x)) names
        else names in
      Ret (filter (fun n => fnmatch n pattern) names)
  end.

Definition glob0 (dirname basename : string) : prog (list string) :=
  if String.eqb basename "" then
    b <- isdir dirname ;; Ret (if b : bool then [basename] else [])
  else
    b <- lexists (os_path_join dirname basename) ;;
    Ret (if b : bool then [basename] else []).

Fixpoint concat_map_prog {X Y : Type} (xs : list X) (f : X -> prog (list Y)) : prog (list Y) :=
  match xs with
  | [] => Ret []
  | x :: xs' => ys <- f x ;; zs <- concat_map_prog xs' f ;; Ret (ys ++ zs)
  end.

Fixpoint iglob (fuel : nat) (pathname : string) : prog (list string) :=
  match fuel with
  | O => Ret []
  | S fuel =>
      let '(dirname, basename) := os_path_split pathname in
      if negb (has_magic pathname) then
        if negb (String.eqb basename "") then
          b <- lexists pathname ;; Ret (if b : bool then [pathname] else [])
        else
          b <- isdir dirname ;; Ret (if b : bool then [pathname] else [])
      else if String.eqb dirname "" then glob1 "." basename
      else
        dirs <- (if negb (String.eqb dirname pathname) && has_magic dirname
                 then iglob fuel dirname else Ret [dirname]) ;;
        concat_map_prog dirs (fun dirname =>
          names <- (if has_magic basename then glob1 dirname basename
                    else glob0 dirname basename) ;;
          Ret (map (os_path_join dirname) names))
  end.

Definition glob (pathname : string) : prog (list string) :=
  iglob (S (String.length pathname)) pathname.

(** ** The functions of [bin.py] *)

(** an entry of the registry: [{'name': ..., 'type': ..., 'conversion_tool': ...}] *)
Record input_file := InputFile {
  name : string;
  type : string;
  conversion_tool : string
}.

(** a registry dict, as its items in iteration order *)
Definition registry := list (string * input_file).

Definition viewkeys (d : registry) : list string := map fst d.
Definition viewvalues (d : registry) : list input_file := map snd d.

(** a Python value used as a condition: [None] and [''] are false *)
Definition truthy (v : option string) : option string :=
  match v with
  | Some s => if String.eqb s "" then None else Some s
  | None => None
  end.

(** [except OSError as e: raise OasisException(e)] *)
Definition wrap_OSError {A : Type} (e : exn) : option (prog A) :=
  match e with
  | Raised (OSError n p) => Some (Raise (OasisExceptionFrom (OSError n p)))
  | _ => None
  end.

Section Bin.

(** [from .files import TAR_FILE, INPUT_FILES, GUL_INPUT_FILES, IL_INPUT_FILES] *)
Variable TAR_FILE : string.
Variables INPUT_FILES GUL_INPUT_FILES IL_INPUT_FILES : registry.

Definition prepare_model_run_directory
           (run_dir_path : string)
           (oasis_files_src_path : option string)
           (ri : bool)
           (analysis_settings_json_src_file_path : option string)
           (model_data_src_path : option string)
           (inputs_archive : option string) : prog unit :=
  try_except
    (for_each ["fifo"; "output"; "static"; "work"] (fun subdir =>
       mkdir_parents_exist_ok (os_path_join run_dir_path subdir)) ;;

     match truthy inputs_archive with
     | None =>
         if negb ri
         then mkdir_parents_exist_ok (os_path_join (os_path_join run_dir_path "input") "csv")
         else mkdir_parents_exist_ok (os_path_join run_dir_path "input")
     | Some inputs_archive =>
         input_tarfile <- tar_open inputs_archive ;;
         let p := os_path_join run_dir_path "input" in
         extractall input_tarfile p ;;
         ds <- listdir p ;;
         for_each (filter (fun d => Str.contains "RI_" d) ds) (fun ri_dir =>
           move (os_path_join p ri_dir) run_dir_path)
     end ;;

     let oasis_files_destpath :=
       if negb ri then os_path_join (os_path_join run_dir_path "input") "csv"
       else os_path_join run_dir_path "input" in

     match truthy oasis_files_src_path with
     | Some oasis_files_src_path =>
         if negb (String.eqb oasis_files_src_path oasis_files_destpath) then
           ps <- listdir oasis_files_src_path ;;
           for_each ps (fun p =>
             let src_fp := os_path_join oasis_files_src_path p in
             if negb (re_match_RI p || String.eqb p "ri_layers.json")
             then copy2 src_fp oasis_files_destpath
             else
               let copy_func := if re_match_RI p then copytree else copy2 in
               copy_func src_fp (os_path_join run_dir_path p))
         else Ret tt
     | None => Ret tt
     end ;;

     match truthy analysis_settings_json_src_file_path with
     | Some analysis_settings_json_src_file_path =>
         let analysis_settings_json_dest_file_path :=
           os_path_join run_dir_path "analysis_settings.json" in
         copyfile analysis_settings_json_src_file_path analysis_settings_json_dest_file_path
     | None => Ret tt
     end ;;

     match truthy model_data_src_path with
     | Some model_data_src_path =>
         let model_data_dest_path := os_path_join run_dir_path "static" in
         paths <- glob (os_path_join model_data_src_path "*") ;;
         for_each paths (fun path =>
           let filename := os_path_basename path in
           try_except
             (symlink path (os_path_join model_data_dest_path filename))
             (fun _ => Some
                (copytree model_data_src_path (os_path_join model_data_dest_path filename))))
     | None => Ret tt
     end)
    wrap_OSError.

(** [model_settings.get(setting_key)]; [setting_key] is [None] by default *)
Definition settings_get (model_settings : gmap string string) (setting_key : option string)
  : option string :=
  setting_key ≫= fun k => model_settings !! k.

Definition _prepare_input_bin
           (run_dir bin_name : string) (model_settings : gmap string string)
           (setting_key : option string) (ri : bool) : prog unit :=
  let bin_fp := os_path_join (os_path_join run_dir "input") (bin_name +:+ ".bin") in
  b <- exists_ bin_fp ;;
  if negb b then
    let setting_val := settings_get model_settings setting_key in
    let model_data_bin_fp :=
      match truthy setting_val with
      | None => os_path_join (os_path_join run_dir "static") (bin_name +:+ ".bin")
      | Some setting_val =>
          let setting_val := Str.lower (Str.replace " " "_" setting_val) in
          os_path_join (os_path_join run_dir "static")
                       (bin_name +:+ "_" +:+ setting_val +:+ ".bin")
      end in
    b <- exists_ model_data_bin_fp ;;
    if negb b then
      Raise (OasisException
               ("Could not find " +:+ bin_name +:+ " data file: " +:+ model_data_bin_fp))
    else copyfile model_data_bin_fp bin_fp
  else Ret tt.

(** [analysis_settings] is a dict of dicts of strings *)
Definition prepare_model_run_inputs
           (analysis_settings : gmap string (gmap string string))
           (run_dir : string) (ri : bool) : prog unit :=
  try_except
    (let model_settings := default ∅ (analysis_settings !! "model_settings") in
     _prepare_input_bin run_dir "events" model_settings (Some "event_set") ri ;;
     _prepare_input_bin run_dir "returnperiods" model_settings None ri ;;
     _prepare_input_bin run_dir "occurrence" model_settings (Some "event_occurrence_id") ri ;;
     b <- exists_ (os_path_join (os_path_join run_dir "static") "periods.bin") ;;
     if b : bool then _prepare_input_bin run_dir "periods" model_settings None ri
     else Ret tt)
    wrap_OSError.

(** the names a directory check goes through *)
Definition required_names (do_il : bool) : list string :=
  if do_il
  then map name (filter (fun f => negb (String.eqb (type f) "optional")) (viewvalues INPUT_FILES))
  else map name (filter (fun f => negb (String.eqb (type f) "optional" || String.eqb (type f) "il"))
                        (viewvalues INPUT_FILES)).

Definition _check_each_inputs_directory
           (directory_to_check : string) (do_il check_binaries : bool) : prog unit :=
  let input_files := required_names do_il in
  for_each input_files (fun input_file =>
    let file_path := os_path_join directory_to_check (input_file +:+ ".csv") in
    b <- exists_ file_path ;;
    if negb b then Raise (OasisException ("Failed to find " +:+ file_path))
    else
      if check_binaries then
        let file_path := os_path_join directory_to_check (input_file +:+ ".bin") in
        b <- exists_ file_path ;;
        if b : bool then Raise (OasisException ("Binary file already exists: " +:+ file_path))
        else Ret tt
      else Ret tt).

Definition check_inputs_directory
           (directory_to_check : string) (do_il do_ri check_binaries : bool) : prog unit :=
  _check_each_inputs_directory directory_to_check do_il check_binaries ;;
  if do_ri then
    ds <- glob (directory_to_check +:+ "/" +:+ "RI_\d+$") ;;
    for_each ds (fun ri_directory_to_check =>
      _check_each_inputs_directory ri_directory_to_check true check_binaries)
  else Ret tt.

(** the body of the loop of [_create_set_of_binary_files] *)
Definition convert_input_file (csv_directory bin_directory : string) (input_file : input_file)
  : prog unit :=
  let conversion_tool := conversion_tool input_file in
  let input_file_path := os_path_join csv_directory (name input_file +:+ ".csv") in
  b <- exists_ input_file_path ;;
  if negb b then Ret tt
  else
    let output_file_path := os_path_join bin_directory (name input_file +:+ ".bin") in
    let cmd_str := conversion_tool +:+ " < " +:+ input_file_path +:+ " > " +:+ output_file_path in
    try_except (check_call cmd_str)
               (fun e => match e with
                         | Raised (CalledProcessError rc cmd) =>
                             Some (Raise (OasisExceptionFrom (CalledProcessError rc cmd)))
                         | _ => None
                         end).

Definition _create_set_of_binary_files
           (csv_directory bin_directory : string) (do_il : bool) : prog unit :=
  b <- exists_ bin_directory ;;
  (if negb b then mkdir bin_directory else Ret tt) ;;
  let input_files :=
    if do_il then viewvalues INPUT_FILES
    else filter (fun f => negb (String.eqb (type f) "il")) (viewvalues INPUT_FILES) in
  for_each input_files (convert_input_file csv_directory bin_directory).

Definition create_binary_files
           (csv_directory bin_directory : string) (do_il do_ri : bool) : prog unit :=
  csvdir <- os_path_abspath csv_directory ;;
  bindir <- os_path_abspath bin_directory ;;
  let do_il := do_il || do_ri in
  _create_set_of_binary_files csvdir bindir do_il ;;
  if do_ri then
    ds <- glob (csvdir +:+ "/" +:+ "RI_[0-9]*") ;;
    for_each ds (fun ri_csvdir =>
      _create_set_of_binary_files
        ri_csvdir (os_path_join bindir (os_path_basename ri_csvdir)) true)
  else Ret tt.




Definition cleanup_targets : list string :=
  TAR_FILE :: map (fun f => f +:+ ".bin") (viewkeys INPUT_FILES).

Definition cleanup_bin_directory (directory : string) : prog unit :=
  for_each cleanup_targets (fun file =>
    let file_path := os_path_join directory file in
    b <- exists_ file_path ;;
    if b : bool then remove file_path else Ret tt).

End Bin.

(** ** Sample data for the examples *)

Module Sample.

Definition file (s : string) : node := File (Bytes s).
Definition dir (l : list (string * node)) : node := Dir (list_to_map l).

(** a conversion tool that accepts any input *)
Definition T (input : data) : Z * string := (0%Z, "binary").

Definition path_env (tool : string) : option (data -> Z * string) :=
  if String.eqb tool "T" then Some T else None.

Definition world_of (l : list (string * node)) (can_link : bool) : world :=
  World (list_to_map l) "/" can_link path_env.

(** the registry of the example of the specification *)
Definition loc_acc_cov : registry :=
  [("loc", InputFile "loc" "gul" "T");
   ("acc", InputFile "acc" "gul" "T");
   ("cov", InputFile "cov" "gul" "T")].


Definition TAR_FILE : string := "inputs.tar.gz".

End Sample.

(** ** Notions used in the statements *)

(** sequencing of outcomes: what [bind] does *)
Definition after {A B : Type} (o : outcome A) (f : A -> world -> outcome B) : outcome B :=
  match result o with
  | inl e => Outcome (calls o) (inl e) (final o)
  | inr a =>
      let o' := f a (final o) in
      Outcome (calls o ++ calls o') (result o') (final o')
  end.

(** what a program can call, whatever the calls return *)
Fixpoint only_calls {A : Type} (P : call -> Prop) (m : prog A) : Prop :=
  match m with
  | Ret _ | Raise _ => True
  | Call c k => P c ∧ ∀ r, only_calls P (k r)
  end.

(** *** Static binary inputs *)

Definition static_roles : list string := ["events"; "returnperiods"; "occurrence"; "periods"].

(** [input/<role>.bin] *)
Definition input_bin (run_dir role : string) : string :=
  os_path_join (os_path_join run_dir "input") (role +:+ ".bin").

(** the setting value with spaces replaced by underscores, lower-cased *)
Definition normalized (v : string) : string := Str.lower (Str.replace " " "_" v).

(** the expected source file, in the words of the specification:
    [static/<role>.bin] when the role's setting has no value, else
    [static/<role>_<normalized value>.bin]; an empty string is no value *)
Definition expected_static_file (run_dir role : string) (value : option string) : string :=
  match value with
  | None | Some "" => os_path_join (os_path_join run_dir "static") (role +:+ ".bin")
  | Some v =>
      os_path_join (os_path_join run_dir "static") (role +:+ "_" +:+ normalized v +:+ ".bin")
  end.

(** the calls of the static materializer: existence tests, and copies from
    [static/] to [input/<role>.bin] *)
Definition static_call (run_dir : string) (c : call) : Prop :=
  match c with
  | os_path_exists _ => True
  | shutil_copyfile src dst =>
      (∃ role, role ∈ static_roles ∧ dst = input_bin run_dir role)
      ∧ ∃ f, src = os_path_join (os_path_join run_dir "static") f
  | _ => False
  end.


(** *** Worlds of the examples *)

Module SampleWorlds.
Import Sample.




(** an input directory with no file at all *)
Definition empty_input : world := world_of [("in", dir [])] true.

(** every CSV of the registry is there, and so is a stale [acc.bin] *)
Definition stale_acc : world :=
  world_of [("in", dir [("loc.csv", file "l"); ("acc.csv", file "a");
                        ("cov.csv", file "c"); ("acc.bin", file "old")])] true.

(** the base layer is complete; the reinsurance layer [RI_1] is empty *)
Definition empty_RI_1 : world :=
  world_of [("in", dir [("loc.csv", file "l"); ("acc.csv", file "a");
                        ("cov.csv", file "c"); ("RI_1", dir [])])] true.

(** model data with one file, on a platform without symbolic links *)
Definition no_symlinks : world := world_of [("model", dir [("a", file "A")])] false.

(** an inputs archive: a base-layer binary, the layer [RI_1], and a file
    whose name has [RI_] in it without being a layer *)
Definition archive_members : list (string * tar_entry) :=
  [("items.bin", TarFile "i"); ("RI_1", TarDir); ("RI_1/items.bin", TarFile "i1");
   ("RI_notes.txt", TarFile "n")].

Definition archived : world := world_of [("inputs.tar", File (TarBall archive_members))] true.

(** the example of the specification: [loc.csv] and [acc.csv] are there,
    [cov.csv] is not *)
Definition partial_csv : world :=
  world_of [("csv", dir [("loc.csv", file "l"); ("acc.csv", file "a")])] true.

(** a CSV directory with the layer [RI_1] and a directory [RI_1x] that is
    no layer *)
Definition layered_csv : world :=
  world_of [("csv", dir [("loc.csv", file "l");
                         ("RI_1", dir [("loc.csv", file "l1")]);
                         ("RI_1x", dir [("loc.csv", file "lx")])])] true.

(** a directory after a conversion and packaging: binaries, the archive,
    the CSVs *)
Definition converted : world :=
  world_of [("in", dir [("loc.csv", file "l"); ("acc.csv", file "a");
                        ("loc.bin", file "L"); ("acc.bin", file "A");
                        ("inputs.tar.gz", File (TarBall [("loc.bin", TarFile "L")]))])] true.

End SampleWorlds.

(** *** Archive check *)




(** *** Input checks *)

Definition csv_of (dir name : string) : string := os_path_join dir (name +:+ ".csv").
Definition bin_of (dir name : string) : string := os_path_join dir (name +:+ ".bin").



Section InputChecks.
Variable INPUT_FILES : registry.




(** what the loop of [_check_each_inputs_directory] raises, if anything *)
Fixpoint first_failure (w : world) (dir : string) (names : list string) : option exn :=
  match names with
  | [] => None
  | n :: names' =>
      if negb (FS.exists_ w (csv_of dir n))
      then Some (OasisException ("Failed to find " +:+ csv_of dir n))
      else if FS.exists_ w (bin_of dir n)
           then Some (OasisException ("Binary file already exists: " +:+ bin_of dir n))
           else first_failure w dir names'
  end.
End InputChecks.

(** *** Reinsurance layer names *)

(** [RI_<digits>]: the letters [RI_] followed by one or more digits *)
Definition RI_digits (n : string) : bool :=
  match n with
  | String r (String i (String u (String c s'))) =>
      Ascii.eqb "R" r && Ascii.eqb "I" i && Ascii.eqb "_" u
      && Str.is_digit c && forallb Str.is_digit (list_ascii_of_string s')
  | _ => false
  end.

(** [RI_], a digit, then anything: the names the glob pattern [RI_[0-9]*]
    stands for *)
Definition ri_layer_name (n : string) : bool :=
  match n with
  | String r (String i (String u (String c _))) =>
      Ascii.eqb "R" r && Ascii.eqb "I" i && Ascii.eqb "_" u && Str.is_digit c
  | _ => false
  end.

(** *** Inputs archive *)



(** the four directories made first *)
Definition make_skeleton (run_dir_path : string) : prog unit :=
  for_each ["fifo"; "output"; "static"; "work"] (fun subdir =>
    mkdir_parents_exist_ok (os_path_join run_dir_path subdir)).

(** the stages of preparing [/run] from the archive of [SampleWorlds.archived] *)
Module ArchiveRun.
Definition skeleton : outcome unit := exec (make_skeleton "/run") SampleWorlds.archived.
Definition extracted : world :=
  snd (FS.extractall (final skeleton) SampleWorlds.archive_members "/run/input").
Definition names : list string :=
  match FS.listdir extracted "/run/input" with inr l => l | inl _ => [] end.
End ArchiveRun.

(** *** Conversion *)

(** the commands handed to the shell, in order *)
Definition tool_runs (cs : list call) : list string :=
  omap (fun c => match c with subprocess_call cmd => Some cmd | _ => None end) cs.

(** [os.path.abspath(path)] in a world *)
Definition abspath_in (w : world) (path : string) : string :=
  os_path_normpath (if Str.startswith "/" path then path else os_path_join (cwd w) path).

(** the claim as the specification words it: nothing is converted into
    [binDir/d] for an entry [d] of the CSV directory that is not named
    [RI_<digits>] *)
Definition only_digit_layers_converted (w' : world) (bindir : string) (entries : list string)
  : Prop :=
  ∀ d, d ∈ entries -> RI_digits d = false -> FS.exists_ w' (os_path_join bindir d) = false.

(** the names [glob] sees in a directory: none when it cannot be listed *)
Definition listing (w : world) (dir : string) : list string :=
  match FS.listdir w dir with
  | inr names => names
  | inl _ => []
  end.

(** the stages of converting [/csv] of [SampleWorlds.layered_csv] into [/bin] *)
Module LayeredRun.
Definition base : outcome unit :=
  exec (_create_set_of_binary_files Sample.loc_acc_cov "/csv" "/bin" true)
       SampleWorlds.layered_csv.
Definition layers : list string :=
  filter (fun n => ri_layer_name n) (listing (final base) "/csv").
Definition passes : outcome unit :=
  exec (for_each layers (fun n =>
          _create_set_of_binary_files
            Sample.loc_acc_cov (os_path_join "/csv" n)
            (os_path_join "/bin" (os_path_basename (os_path_join "/csv" n))) true))
       (final base).
Definition converted : outcome unit :=
  exec (create_binary_files Sample.loc_acc_cov "/csv" "/bin" false true)
       SampleWorlds.layered_csv.
End LayeredRun.

(** *** What path resolution looks at *)

Inductive kind :=
| KFile
| KDir
| KLink (target : string).

Definition kind_of (n : node) : kind :=
  match n with
  | File _ => KFile
  | Dir _ => KDir
  | Link target => KLink target
  end.

Definition kind_at (t : node) (p : list string) : option kind :=
  kind_of <$> FS.lookup_phys p t.

Definition leaf (n : node) : Prop :=
  match n with
  | Dir _ => False
  | _ => True
  end.

(** *** Clean-up *)

(** the body of the loop of [cleanup_bin_directory] *)
Definition remove_if_exists (directory file : string) : prog unit :=
  let file_path := os_path_join directory file in
  b <- exists_ file_path ;;
  if b : bool then remove file_path else Ret tt.

(** the calls of a clean-up: existence tests and removals of the targets *)
Definition cleanup_call (paths : list string) (c : call) : Prop :=
  match c with
  | os_path_exists p | os_remove p => p ∈ paths
  | _ => False
  end.


(** ** The tool check

    [check_conversion_tools] calls [shutilwhich.which] and [logging.error]
    and nothing else; its programs are those of a small monad of their own.
    A tool is found when the table of executables of the world has it. *)

Module ToolCheck.

Inductive call :=
| shutilwhich_which (tool : string)
| logging_error (msg : string).

(** [which] returns a path or [None]: here, whether it returns a path *)
Definition resp (c : call) : Type :=
  match c with
  | shutilwhich_which _ => bool
  | logging_error _ => unit
  end.

Inductive prog (A : Type) : Type :=
| Ret (a : A)
| Raise (e : exn)
| Call (c : call) (k : resp c -> prog A).

Arguments Ret {A} a.
Arguments Raise {A} e.
Arguments Call {A} c k.

Fixpoint bind {A B : Type} (m : prog A) (f : A -> prog B) : prog B :=
  match m with
  | Ret a => f a
  | Raise e => Raise e
  | Call c k => Call c (fun r => bind (k r) f)
  end.

Fixpoint for_each {X : Type} (xs : list X) (body : X -> prog unit) : prog unit :=
  match xs with
  | [] => Ret tt
  | x :: xs' => bind (body x) (fun _ => for_each xs' body)
  end.

Definition found (w : world) (tool : string) : bool :=
  match tools w tool with
  | Some _ => true
  | None => false
  end.

Definition handle (c : call) (w : world) : resp c :=
  match c with
  | shutilwhich_which tool => found w tool
  | logging_error _ => tt
  end.

(** the calls made and the result; the world does not change *)
Fixpoint exec {A : Type} (m : prog A) (w : world) : list call * (exn + A) :=
  match m with
  | Ret a => ([], inr a)
  | Raise e => ([], inl e)
  | Call c k => let o := exec (k (handle c w)) w in (c :: fst o, snd o)
  end.

Definition which (tool : string) : prog bool := Call (shutilwhich_which tool) Ret.
Definition error (msg : string) : prog unit := Call (logging_error msg) Ret.

Definition check_conversion_tools (INPUT_FILES : registry) (do_il : bool) : prog bool :=
  let input_files :=
    if do_il then viewvalues INPUT_FILES
    else filter (fun f => negb (String.eqb (type f) "il")) (viewvalues INPUT_FILES) in
  bind (for_each input_files (fun input_file =>
          let tool := conversion_tool input_file in
          bind (which tool) (fun path =>
            if negb path then
              let error_message := "Failed to find conversion tool: " +:+ tool in
              bind (error error_message) (fun _ => Raise (OasisException error_message))
            else Ret tt)))
       (fun _ => Ret true).

(** the body of the loop of [check_conversion_tools] *)
Definition check_tool (input_file : input_file) : prog unit :=
  let tool := conversion_tool input_file in
  bind (which tool) (fun path =>
    if negb path then
      let error_message := "Failed to find conversion tool: " +:+ tool in
      bind (error error_message) (fun _ => Raise (OasisException error_message))
    else Ret tt).

(** the tools looked for, in order *)
Definition tools_looked_for (INPUT_FILES : registry) (do_il : bool) : list string :=
  map conversion_tool
      (if do_il then viewvalues INPUT_FILES
       else filter (fun f => negb (String.eqb (type f) "il")) (viewvalues INPUT_FILES)).

Definition tool_missing (tool : string) : string :=
  "Failed to find conversion tool: " +:+ tool.

End ToolCheck.

(** a registry with an IL member whose tool is not installed in the sample
    worlds *)
Module SampleTools.
Definition gul_and_il : registry :=
  [("items", InputFile "items" "gul" "T");
   ("fm_programme", InputFile "fm_programme" "il" "fmprogrammetobin");
   ("fm_xref", InputFile "fm_xref" "il" "fmxreftobin")].
End SampleTools.

(** ** Further notions *)

(** the calls that only look at the file system *)
Definition read_call (c : call) : Prop :=
  match c with
  | os_path_exists _ | os_path_lexists _ | os_path_isdir _ | os_getcwd
  | os_listdir _ | tarfile_open _ => True
  | _ => False
  end.

(** the command of the conversion of one member *)
Definition conversion_cmd (csv_directory bin_directory : string) (f : input_file) : string :=
  conversion_tool f +:+ " < " +:+ csv_of csv_directory (name f)
  +:+ " > " +:+ bin_of bin_directory (name f).

(** the commands a pass may run: one per member of the registry, none for an
    IL member when IL is off *)
Definition conversion_of (INPUT_FILES : registry) (csv_directory bin_directory : string)
           (do_il : bool) (cmd : string) : Prop :=
  ∃ f, f ∈ viewvalues INPUT_FILES
       ∧ (do_il = false -> type f ≠ "il")
       ∧ cmd = conversion_cmd csv_directory bin_directory f.

(** the directories made when there is no inputs archive *)
Definition make_layout (run_dir_path : string) (ri : bool) : prog unit :=
  make_skeleton run_dir_path ;;
  if negb ri
  then mkdir_parents_exist_ok (os_path_join (os_path_join run_dir_path "input") "csv")
  else mkdir_parents_exist_ok (os_path_join run_dir_path "input").

(** where the source files go *)
Definition files_destpath (run_dir_path : string) (ri : bool) : string :=
  if negb ri then os_path_join (os_path_join run_dir_path "input") "csv"
  else os_path_join run_dir_path "input".


(** what the handler of [except OSError] makes of an exception *)
Definition wrapped (e : exn) : exn :=
  match e with
  | Raised (OSError n p) => OasisExceptionFrom (OSError n p)
  | _ => e
  end.

(** the loop of [_check_each_inputs_directory] over any list of names *)
Definition check_names (dir : string) (check_binaries : bool) (names : list string)
  : prog unit :=
  for_each names (fun input_file =>
    let file_path := os_path_join dir (input_file +:+ ".csv") in
    b <- exists_ file_path ;;
    if negb b then Raise (OasisException ("Failed to find " +:+ file_path))
    else
      if check_binaries then
        let file_path := os_path_join dir (input_file +:+ ".bin") in
        b <- exists_ file_path ;;
        if b : bool then Raise (OasisException ("Binary file already exists: " +:+ file_path))
        else Ret tt
      else Ret tt).

(** sample worlds for the further properties *)
Module MoreWorlds.
Import Sample.

(** CSVs only, no binaries *)
Definition csv_only : world :=
  world_of [("in", dir [("loc.csv", file "l"); ("acc.csv", file "a");
                        ("cov.csv", file "c")])] true.

(** a tool that rejects its input *)
Definition failing (input : data) : Z * string := (3%Z, "").

Definition failing_tools : world :=
  World (list_to_map [("csv", dir [("loc.csv", file "l"); ("acc.csv", file "a")]);
                      ("bin", dir [])])
        "/" true
        (fun tool => if String.eqb tool "T" then Some failing else None).

(** a file that is no archive *)
Definition not_a_tar : world := world_of [("inputs.tar", file "garbage")] true.


(** all static inputs already in [input] *)
Definition materialized : world :=
  world_of [("run", dir [("input", dir [("events.bin", file "e");
                                        ("returnperiods.bin", file "r");
                                        ("occurrence.bin", file "o")]);
                         ("static", dir [])])] true.

(** the CSVs of [SampleTools.gul_and_il], no binaries *)
Definition il_csvs : world :=
  world_of [("in", dir [("items.csv", file "i"); ("fm_programme.csv", file "p");
                        ("fm_xref.csv", file "x")])] true.

(** a run directory prepared once already: [static/a] links to the model
    data *)
Definition prepared_before : world :=
  world_of [("model", dir [("a", file "A")]);
            ("run", dir [("static", dir [("a", Link "/model/a")])])] true.

End MoreWorlds.

(** ** Running programs: general facts *)

#[local] Set Warnings "-clear-no-such-hyp".
#[local] Arguments Ascii.eqb : simpl never.
#[local] Arguments String.eqb : simpl never.

Section Exec.

Context {A B : Type}.

Lemma exec_bind (m : prog A) (f : A -> prog B) (w : world) :
  exec (bind m f) w = after (exec m w) (fun a => exec (f a)).
Proof.
  revert w. induction m as [a|e|c k IH]; intros w; unfold after; simpl.
  - by destruct (exec (f a) w).
  - done.
  - rewrite IH. unfold after. by destruct (result (exec (k _) _)).
Qed.

End Exec.

Lemma exec_try_except {A : Type} (m : prog A) (h : exn -> option (prog A)) (w : world) :
  exec (try_except m h) w =
  match result (exec m w) with
  | inr _ => exec m w
  | inl e =>
      match h e with
      | None => exec m w
      | Some m' =>
          let o' := exec m' (final (exec m w)) in
          Outcome (calls (exec m w) ++ calls o') (result o') (final o')
      end
  end.
Proof.
  revert w. induction m as [a|e|c k IH]; intros w; simpl.
  - done.
  - destruct (h e) as [m'|]; [|done]. by destruct (exec m' w).
  - rewrite IH. destruct (result (exec (k _) _)) as [e|a] eqn:E; simpl; rewrite ?E; [|done].
    destruct (h e); simpl; rewrite ?E; reflexivity.
Qed.

Lemma exec_for_each_cons {X : Type} (x : X) (xs : list X) (body : X -> prog unit) (w : world) :
  exec (for_each (x :: xs) body) w = after (exec (body x) w) (fun _ => exec (for_each xs body)).
Proof. simpl. apply exec_bind. Qed.

Lemma outcome_eta {A : Type} (o : outcome A) : Outcome (calls o) (result o) (final o) = o.
Proof. by destruct o. Qed.

Lemma only_calls_exec {A : Type} (P : call -> Prop) (m : prog A) (w : world) :
  only_calls P m -> Forall P (calls (exec m w)).
Proof.
  revert w. induction m as [a|e|c k IH]; intros w; simpl; [constructor..|].
  intros [Hc Hk]. constructor; [done|]. apply IH, Hk.
Qed.

Lemma only_calls_bind {A B : Type} (P : call -> Prop) (m : prog A) (f : A -> prog B) :
  only_calls P m -> (∀ a, only_calls P (f a)) -> only_calls P (bind m f).
Proof.
  induction m as [a|e|c k IH]; simpl; [auto..|].
  intros [Hc Hk] Hf. split; [done|]. intros r. by apply IH.
Qed.

Lemma only_calls_try_except {A : Type} (P : call -> Prop) (m : prog A) h :
  only_calls P m -> (∀ e m', h e = Some m' -> only_calls P m') -> only_calls P (try_except m h).
Proof.
  induction m as [a|e|c k IH]; simpl; [auto| |].
  - intros _ Hh. destruct (h e) eqn:E; [by eapply Hh|done].
  - intros [Hc Hk] Hh. split; [done|]. intros r. by apply IH.
Qed.

Lemma only_calls_for_each {X : Type} (P : call -> Prop) (xs : list X) (body : X -> prog unit) :
  (∀ x, x ∈ xs -> only_calls P (body x)) -> only_calls P (for_each xs body).
Proof.
  induction xs as [|x xs IH]; simpl; [done|].
  intros H. apply only_calls_bind; [apply H; left|].
  intros _. apply IH. intros y Hy. apply H. by right.
Qed.

(** ** The static binary materializer *)

Lemma exec_exists_ (p : string) (w : world) :
  exec (exists_ p) w = Outcome [os_path_exists p] (inr (FS.exists_ w p)) w.
Proof. reflexivity. Qed.

Lemma _prepare_input_bin_present run_dir bin_name ms key ri w :
  FS.exists_ w (input_bin run_dir bin_name) = true ->
  exec (_prepare_input_bin run_dir bin_name ms key ri) w =
  Outcome [os_path_exists (input_bin run_dir bin_name)] (inr tt) w.
Proof.
  intros H. unfold _prepare_input_bin. rewrite exec_bind, exec_exists_. unfold after; simpl.
  fold (input_bin run_dir bin_name). by rewrite H.
Qed.

Lemma model_data_bin_fp_expected run_dir bin_name (v : option string) :
  match truthy v with
  | None => os_path_join (os_path_join run_dir "static") (bin_name +:+ ".bin")
  | Some setting_val =>
      let setting_val := Str.lower (Str.replace " " "_" setting_val) in
      os_path_join (os_path_join run_dir "static")
                   (bin_name +:+ "_" +:+ setting_val +:+ ".bin")
  end = expected_static_file run_dir bin_name v.
Proof. destruct v as [[|c v]|]; reflexivity. Qed.


Lemma _prepare_input_bin_calls run_dir bin_name ms key ri :
  bin_name ∈ static_roles ->
  only_calls (static_call run_dir) (_prepare_input_bin run_dir bin_name ms key ri).
Proof.
  intros Hrole. unfold _prepare_input_bin. simpl. split; [done|]. intros [|]; simpl; [done|].
  split; [done|]. intros [|]; simpl; [|done].
  split; [|by intros [|[]]].
  split; [by exists bin_name|].
  rewrite model_data_bin_fp_expected. unfold expected_static_file.
  destruct (settings_get ms key) as [[|]|]; eauto.
Qed.

(** C10: [prepare_model_run_inputs] does the same with [ri] true and [ri]
    false, on every settings document, run directory and world: same calls,
    same result, same final world.  Whatever [ri] is, it only tests paths for
    existence and copies from [static/] to [input/<role>.bin] for the four
    static roles: nothing is written into an [RI_<n>] layer. *)
Theorem prepare_model_run_inputs_ignores_ri
        (analysis_settings : gmap string (gmap string string)) (run_dir : string) (w : world) :
  exec (prepare_model_run_inputs analysis_settings run_dir true) w
  = exec (prepare_model_run_inputs analysis_settings run_dir false) w
  ∧ ∀ ri, Forall (static_call run_dir)
                 (calls (exec (prepare_model_run_inputs analysis_settings run_dir ri) w)).
Proof.
  split; [reflexivity|].
  intros ri. apply only_calls_exec. unfold prepare_model_run_inputs.
  apply only_calls_try_except.
  - repeat (apply only_calls_bind;
            [apply _prepare_input_bin_calls; unfold static_roles; set_solver | intros _]).
    simpl. split; [done|]. intros [|]; [|done].
    apply _prepare_input_bin_calls. unfold static_roles; set_solver.
  - intros e m' He. destruct e as [[]| |]; simplify_eq/=. done.
Qed.



(** ** The archive check *)






(** ** Paths and patterns *)

Lemma has_magic_app (a b : string) : has_magic (a +:+ b) = has_magic a || has_magic b.
Proof. induction a as [|c a IH]; [done|]. simpl. by rewrite IH, orb_assoc. Qed.

Lemma cut_last_slash_None (b : string) :
  Str.contains "/" b = false -> cut_last_slash b = None.
Proof.
  induction b as [|c b IH]; [done|]. simpl.
  intros H. apply orb_false_elim in H as [H1 H2]. rewrite (IH H2).
  rewrite andb_true_r in H1. rewrite Ascii.eqb_sym. by rewrite H1.
Qed.

Lemma cut_last_slash_app (a b : string) :
  Str.contains "/" b = false ->
  cut_last_slash (a +:+ "/" +:+ b) = Some (a +:+ "/", b).
Proof.
  intros Hb. induction a as [|c a IH].
  - change ("" +:+ "/" +:+ b) with (String "/" b).
    cbn [cut_last_slash]. by rewrite (cut_last_slash_None b Hb).
  - change (String c a +:+ "/" +:+ b) with (String c (a +:+ "/" +:+ b)).
    cbn [cut_last_slash]. by rewrite IH.
Qed.

Lemma os_path_split_tail (a b : string) :
  Str.contains "/" b = false -> snd (os_path_split (a +:+ "/" +:+ b)) = b.
Proof. intros Hb. unfold os_path_split. by rewrite cut_last_slash_app. Qed.


(** ** The input checks *)

Section InputChecksFacts.
Variable INPUT_FILES : registry.



Lemma first_failure_None (w : world) (dir : string) (names : list string) :
  first_failure w dir names = None <->
  ∀ n, n ∈ names -> FS.exists_ w (csv_of dir n) = true ∧ FS.exists_ w (bin_of dir n) = false.
Proof.
  induction names as [|n names IH]; simpl.
  - split; [|done]. intros _ n Hn. by apply elem_of_nil in Hn.
  - destruct (FS.exists_ w (csv_of dir n)) eqn:Ecsv; simpl.
    + destruct (FS.exists_ w (bin_of dir n)) eqn:Ebin.
      * split; [done|]. intros H. destruct (H n) as [_ H']; [left|]. congruence.
      * rewrite IH. split.
        -- intros H m Hm. apply elem_of_cons in Hm as [->|Hm]; auto.
        -- intros H m Hm. apply H. by right.
    + split; [done|]. intros H. destruct (H n) as [H' _]; [left|]. congruence.
Qed.



End InputChecksFacts.

Section InputChecksClaims.
Variable INPUT_FILES : registry.



End InputChecksClaims.




(** C1: the code does not do what the claim says.  The base layer of
    [SampleWorlds.empty_RI_1] is complete and its subdirectory [RI_1], whose
    name matches [RI_<digits>], has none of the required CSVs; with
    [do_ri] on, [check_inputs_directory] returns without an error.  The only
    call about reinsurance layers asks whether an entry named [RI_\d+$],
    letter for letter, exists: [glob] takes the regular expression for a
    literal path. *)
Theorem check_inputs_directory_skips_RI_1 :
  let w := SampleWorlds.empty_RI_1 in
  let o := exec (check_inputs_directory Sample.loc_acc_cov "/in" false true true) w in
  FS.isdir w "/in/RI_1" = true
  ∧ re_match_RI "RI_1" = true
  ∧ required_names Sample.loc_acc_cov true = ["loc"; "acc"; "cov"]
  ∧ FS.exists_ w (csv_of "/in/RI_1" "loc") = false
  ∧ result o = inr tt
  ∧ calls o = [os_path_exists "/in/loc.csv"; os_path_exists "/in/loc.bin";
               os_path_exists "/in/acc.csv"; os_path_exists "/in/acc.bin";
               os_path_exists "/in/cov.csv"; os_path_exists "/in/cov.bin";
               os_path_lexists "/in/RI_\d+$"].
Proof. vm_compute. repeat split; reflexivity. Qed.

(** C7: the code does not do what the claim says.  On a platform without
    symbolic links, with a model-data directory [/model] holding one file
    [a], the link [/run/static/a] is attempted and fails, and the fallback
    copies the directory [/model] itself, not the entry [/model/a], to
    [/run/static/a]: that path ends up a directory holding a copy of [a]. *)
Theorem symlink_fallback_copies_source_directory :
  let w := SampleWorlds.no_symlinks in
  let o := exec (prepare_model_run_directory "/run" None false None (Some "/model") None) w in
  result o = inr tt
  ∧ calls o = [Path_mkdir "/run/fifo"; Path_mkdir "/run/output"; Path_mkdir "/run/static";
               Path_mkdir "/run/work"; Path_mkdir "/run/input/csv"; os_listdir "/model";
               os_symlink "/model/a" "/run/static/a";
               shutil_copytree "/model" "/run/static/a"]
  ∧ FS.stat w "/model/a" = Some (File (Bytes "A"))
  ∧ FS.stat (final o) "/run/static/a" = FS.stat w "/model"
  ∧ FS.stat (final o) "/run/static/a/a" = Some (File (Bytes "A")).
Proof. vm_compute. repeat split; reflexivity. Qed.

(** ** The inputs archive *)


(** [except OSError as e: raise OasisException(e)] adds no call and changes
    no state *)
Lemma exec_wrap_OSError {A : Type} (m : prog A) (w : world) :
  let o := exec (try_except m wrap_OSError) w in
  calls o = calls (exec m w) ∧ final o = final (exec m w)
  ∧ (returns o <-> returns (exec m w)).
Proof.
  cbv zeta. rewrite exec_try_except. unfold returns.
  destruct (result (exec m w)) as [e|a] eqn:E; [|by rewrite E].
  destruct e as [[n p|p|s|rc cmd]|msg|c]; simpl; rewrite ?E, ?app_nil_r; done.
Qed.

Lemma exec_then_nothing (m : prog unit) (w : world) :
  exec (m ;; Ret tt ;; Ret tt ;; Ret tt) w = exec m w.
Proof.
  rewrite exec_bind. unfold after.
  destruct (exec m w) as [cs [e|[]] w']; simpl; [done|]. by rewrite app_nil_r.
Qed.





(** ** The conversion pass *)

Lemma exec_for_each_app {X : Type} (l1 l2 : list X) (body : X -> prog unit) (w : world) :
  exec (for_each (l1 ++ l2) body) w
  = after (exec (for_each l1 body) w) (fun _ => exec (for_each l2 body)).
Proof.
  revert w. induction l1 as [|x l1 IH]; intros w.
  - unfold after; simpl. by destruct (exec (for_each l2 body) w).
  - change ((x :: l1) ++ l2) with (x :: (l1 ++ l2)). rewrite !exec_for_each_cons.
    unfold after. destruct (result (exec (body x) w)) as [e|[]]; [done|].
    rewrite IH. unfold after. cbn [calls result final].
    destruct (result (exec (for_each l1 body) _)); cbn [calls result final];
      by rewrite ?app_assoc.
Qed.

Lemma exec_convert_absent (csv_directory bin_directory : string) (f : input_file) (w : world) :
  FS.exists_ w (csv_of csv_directory (name f)) = false ->
  exec (convert_input_file csv_directory bin_directory f) w
  = Outcome [os_path_exists (csv_of csv_directory (name f))] (inr tt) w.
Proof.
  intros H. unfold convert_input_file. rewrite exec_bind, exec_exists_. unfold after.
  cbn [result calls final]. fold (csv_of csv_directory (name f)). by rewrite H.
Qed.

(** C5: in a conversion pass, a member whose CSV does not exist when its
    turn comes is skipped: its iteration only tests the CSV for existence,
    raises nothing, runs no tool and changes nothing, so that the pass ends
    with the result and the state it would have without that member.  With
    the members [loc], [acc] and [cov] as core files and only [loc.csv] and
    [acc.csv] there, [create_binary_files] returns without error and leaves
    [loc.bin] and [acc.bin], and nothing else, in the target directory. *)
Theorem absent_csv_is_skipped
        (csv_directory bin_directory : string) (f : input_file) (w : world) :
  FS.exists_ w (csv_of csv_directory (name f)) = false ->
  exec (convert_input_file csv_directory bin_directory f) w
  = Outcome [os_path_exists (csv_of csv_directory (name f))] (inr tt) w
  ∧ (∀ (before after_ : list input_file) (w0 : world),
       final (exec (for_each before (convert_input_file csv_directory bin_directory)) w0) = w ->
       let with_f := exec (for_each (before ++ f :: after_)
                                    (convert_input_file csv_directory bin_directory)) w0 in
       let without_f := exec (for_each (before ++ after_)
                                       (convert_input_file csv_directory bin_directory)) w0 in
       result with_f = result without_f ∧ final with_f = final without_f
       ∧ tool_runs (calls with_f) = tool_runs (calls without_f))
  ∧ (let o := exec (create_binary_files Sample.loc_acc_cov "/csv" "/bin" false false)
                   SampleWorlds.partial_csv in
     result o = inr tt
     ∧ FS.exists_ (final o) "/bin/loc.bin" = true
     ∧ FS.exists_ (final o) "/bin/acc.bin" = true
     ∧ FS.exists_ (final o) "/bin/cov.bin" = false
     ∧ (∃ l, FS.listdir (final o) "/bin" = inr l ∧ List.length l = 2%nat)
     ∧ tool_runs (calls o) = ["T < /csv/loc.csv > /bin/loc.bin";
                              "T < /csv/acc.csv > /bin/acc.bin"]).
Proof.
  intros Habsent. split; [by apply exec_convert_absent|]. split.
  - intros before after_ w0 Hw with_f without_f. subst with_f without_f.
    rewrite !exec_for_each_app. unfold after.
    destruct (result (exec (for_each before _) w0)) as [e|[]]; [done|].
    rewrite Hw. rewrite exec_for_each_cons, exec_convert_absent by done.
    unfold after. cbn [calls result final].
    repeat split. unfold tool_runs. by rewrite !omap_app.
  - vm_compute. repeat split. exists ["acc.bin"; "loc.bin"]. by split.
Qed.

Lemma absent_csv_is_skipped_witness :
  exec (convert_input_file "/csv" "/bin" (InputFile "cov" "gul" "T")) SampleWorlds.partial_csv
  = Outcome [os_path_exists "/csv/cov.csv"] (inr tt) SampleWorlds.partial_csv.
Proof.
  refine (proj1 (absent_csv_is_skipped "/csv" "/bin" (InputFile "cov" "gul" "T")
                                       SampleWorlds.partial_csv _)).
  vm_compute; reflexivity.
Defined.

(** ** The reinsurance passes of the conversion *)

Lemma os_path_normpath_nonempty (path : string) : os_path_normpath path ≠ "".
Proof.
  unfold os_path_normpath. destruct (String.eqb path ""); [done|]. cbv zeta.
  match goal with |- (if String.eqb ?x "" then _ else _) ≠ _ =>
    destruct (String.eqb_spec x "") end; done.
Qed.

Lemma all_slashes_false (c : string) :
  Str.ends_slash c = false -> c ≠ "" -> all_slashes c = false.
Proof.
  induction c as [|a c IH]; [done|]. intros H _. simpl in *.
  destruct c as [|b c].
  - by rewrite H.
  - rewrite IH by done. apply andb_false_r.
Qed.

Lemma all_slashes_app_false (c b : string) :
  all_slashes c = false -> all_slashes (c +:+ b) = false.
Proof.
  induction c as [|a c IH]; [done|]. simpl. intros H.
  apply andb_false_iff in H as [H|H]; [by rewrite H|]. rewrite IH by done.
  apply andb_false_r.
Qed.

Lemma rstrip_slash_app (c : string) :
  Str.ends_slash c = false -> c ≠ "" -> rstrip_slash (c +:+ "/") = c.
Proof.
  induction c as [|a c IH]; [done|]. intros H _.
  change (String a c +:+ "/") with (String a (c +:+ "/")). cbn [rstrip_slash].
  destruct c as [|b c].
  - simpl in *. change (rstrip_slash ("" +:+ "/")) with "". simpl. by rewrite H.
  - rewrite IH by done. done.
Qed.

Lemma os_path_split_app (c b : string) :
  Str.contains "/" b = false -> Str.ends_slash c = false -> c ≠ "" ->
  os_path_split (c +:+ "/" +:+ b) = (c, b).
Proof.
  intros Hb Hc Hne. unfold os_path_split. rewrite cut_last_slash_app by done.
  rewrite all_slashes_app_false by by apply all_slashes_false.
  by rewrite rstrip_slash_app.
Qed.

Lemma star_matches_all (s : string) : some_suffix (tokens_match []) s = true.
Proof.
  induction s as [|a s IH]; [done|]. cbn [some_suffix]. rewrite IH. apply orb_true_r.
Qed.

Lemma fnmatch_RI (n : string) : fnmatch n "RI_[0-9]*" = ri_layer_name n.
Proof.
  unfold fnmatch.
  change (glob_tokens (String.length "RI_[0-9]*") "RI_[0-9]*")
    with [GLit "R"; GLit "I"; GLit "_"; GSet false "0-9"; GStar].
  destruct n as [|r [|i [|u [|c n]]]]; cbn [tokens_match ri_layer_name];
    rewrite ?andb_false_r; try done.
  rewrite star_matches_all, andb_true_r, !andb_assoc. f_equal.
  unfold Str.is_digit. cbn [class_mem xorb]. by rewrite orb_false_r.
Qed.

Lemma ri_layer_name_not_hidden (n : string) : ri_layer_name n = true -> is_hidden n = false.
Proof.
  destruct n as [|r n]; [done|]. destruct n as [|i [|u [|c n]]]; try done.
  unfold ri_layer_name, is_hidden. intros H.
  apply andb_prop in H as [H _]. apply andb_prop in H as [H _]. apply andb_prop in H as [H _].
  apply Ascii.eqb_eq in H as <-. done.
Qed.

Lemma RI_digits_ri_layer_name (n : string) : RI_digits n = true -> ri_layer_name n = true.
Proof.
  destruct n as [|r [|i [|u [|c n]]]]; try done. unfold RI_digits, ri_layer_name.
  intros H. by apply andb_prop in H as [H _].
Qed.

Lemma filter_RI_pattern (names : list string) :
  filter (fun n => fnmatch n "RI_[0-9]*") (filter (fun x => negb (is_hidden x)) names)
  = filter (fun n => ri_layer_name n) names.
Proof.
  induction names as [|n names IH]; [done|].
  rewrite (filter_cons (fun x : string => Is_true (negb (is_hidden x)))).
  rewrite (filter_cons (fun x : string => Is_true (ri_layer_name x))).
  destruct (decide (Is_true (negb (is_hidden n)))) as [Hh|Hh].
  - rewrite (filter_cons (fun x : string => Is_true (fnmatch x "RI_[0-9]*"))).
    rewrite fnmatch_RI, IH. done.
  - rewrite IH. destruct (decide (Is_true (ri_layer_name n))) as [Hl|Hl]; [|done].
    apply Is_true_true, ri_layer_name_not_hidden in Hl. rewrite Hl in Hh. by destruct Hh.
Qed.

Lemma exec_glob_RI (c : string) (w : world) :
  has_magic c = false -> Str.ends_slash c = false -> c ≠ "" ->
  exec (glob (c +:+ "/" +:+ "RI_[0-9]*")) w
  = Outcome [os_listdir c]
            (inr (map (os_path_join c) (filter (fun n => ri_layer_name n) (listing w c)))) w.
Proof.
  intros Hmagic Hslash Hne. unfold glob. cbn [iglob].
  rewrite os_path_split_app by done.
  rewrite !has_magic_app, Hmagic.
  change (has_magic "RI_[0-9]*") with true. rewrite !orb_true_r. cbn [negb].
  destruct (String.eqb_spec c "") as [|_]; [done|].
  rewrite andb_false_r. cbn [bind concat_map_prog].
  unfold glob1. destruct (String.eqb_spec c "") as [|_]; [done|].
  change (Str.startswith "." "RI_[0-9]*") with false. cbn [negb].
  unfold listing. cbn [bind ask exec handle fst snd].
  destruct (FS.listdir w c) as [e|names]; cbn [bind exec]; [done|].
  rewrite filter_RI_pattern, app_nil_r. done.
Qed.

Lemma exec_for_each_map {X Y : Type} (g : X -> Y) (l : list X) (body : Y -> prog unit)
      (w : world) :
  exec (for_each (map g l) body) w = exec (for_each l (fun x => body (g x))) w.
Proof.
  revert w. induction l as [|x l IH]; intros w; [done|].
  change (map g (x :: l)) with (g x :: map g l). rewrite !exec_for_each_cons.
  unfold after. destruct (result (exec (body (g x)) w)); [done|]. by rewrite IH.
Qed.

Lemma exec_bind_known {A B : Type} (m : prog A) (f : A -> prog B) (w w' : world)
      (cs : list call) (a : A) :
  exec m w = Outcome cs (inr a) w' ->
  exec (bind m f) w
  = let o := exec (f a) w' in Outcome (cs ++ calls o) (result o) (final o).
Proof. intros H. rewrite exec_bind, H. reflexivity. Qed.

Lemma exec_os_path_abspath (path : string) (w : world) :
  exec (os_path_abspath path) w
  = Outcome (if Str.startswith "/" path then [] else [os_getcwd]) (inr (abspath_in w path)) w.
Proof.
  unfold os_path_abspath, abspath_in. by destruct (Str.startswith "/" path).
Qed.

Lemma os_path_join_plain (c n : string) :
  c ≠ "" -> Str.ends_slash c = false -> Str.startswith "/" n = false ->
  os_path_join c n = c +:+ "/" +:+ n.
Proof.
  intros Hne Hslash Hn. unfold os_path_join. rewrite Hn, Hslash.
  by destruct (String.eqb_spec c "").
Qed.

Lemma contains_slash_startswith (n : string) :
  Str.contains "/" n = false -> Str.startswith "/" n = false.
Proof. destruct n; [done|]. simpl. by intros [H _]%orb_false_elim. Qed.

(** C4, as amended: [create_binary_files] runs the base pass with IL forced
    on when [do_ri] is on.  When the absolute CSV directory has no glob
    wildcard in its name, the base pass is followed, when [do_ri] is on, by
    one pass with IL on for every entry [n] of the CSV directory whose name is
    [RI_], a digit, then anything (so for every entry named [RI_<digits>]),
    from [csvdir/n] into [bindir/n], and by none for any other entry; when
    [do_ri] is off no pass follows. *)
Theorem ri_passes_follow_glob_pattern
        (INPUT_FILES : registry) (csv_directory bin_directory : string)
        (do_il do_ri : bool) (w : world) :
  let csvdir := abspath_in w csv_directory in
  let bindir := abspath_in w bin_directory in
  has_magic csvdir = false -> Str.ends_slash csvdir = false ->
  let base := exec (_create_set_of_binary_files INPUT_FILES csvdir bindir (do_il || do_ri)) w in
  let layers :=
    if do_ri then filter (fun n => ri_layer_name n) (listing (final base) csvdir) else [] in
  let passes :=
    exec (for_each layers (fun n =>
            _create_set_of_binary_files
              INPUT_FILES (os_path_join csvdir n)
              (os_path_join bindir (os_path_basename (os_path_join csvdir n))) true))
         (final base) in
  let o := exec (create_binary_files INPUT_FILES csv_directory bin_directory do_il do_ri) w in
  (result o = result (after base (fun _ _ => passes))
   ∧ final o = final (after base (fun _ _ => passes))
   ∧ tool_runs (calls o) = tool_runs (calls (after base (fun _ _ => passes))))
  ∧ (∀ n, n ∈ listing (final base) csvdir ->
          (n ∈ layers <-> do_ri = true ∧ ri_layer_name n = true))
  ∧ (∀ n, RI_digits n = true -> ri_layer_name n = true)
  ∧ (∀ n, Str.contains "/" n = false ->
          os_path_join csvdir n = csvdir +:+ "/" +:+ n
          ∧ os_path_basename (os_path_join csvdir n) = n).
Proof.
  intros csvdir bindir Hmagic Hslash base layers passes o.
  assert (Hne : csvdir ≠ "") by apply os_path_normpath_nonempty.
  split; [|split; [|split]].
  - assert (Ho : o = let rest := after base (fun _ w' =>
                        exec (if do_ri
                              then ds <- glob (csvdir +:+ "/" +:+ "RI_[0-9]*") ;;
                                   for_each ds (fun ri_csvdir =>
                                     _create_set_of_binary_files
                                       INPUT_FILES ri_csvdir
                                       (os_path_join bindir (os_path_basename ri_csvdir)) true)
                              else Ret tt) w') in
                     Outcome ((if Str.startswith "/" csv_directory then [] else [os_getcwd])
                              ++ (if Str.startswith "/" bin_directory then [] else [os_getcwd])
                              ++ calls rest) (result rest) (final rest)).
    { unfold o, create_binary_files.
      rewrite (exec_bind_known _ _ _ _ _ _ (exec_os_path_abspath csv_directory w)).
      rewrite (exec_bind_known _ _ _ _ _ _ (exec_os_path_abspath bin_directory w)).
      cbv zeta. cbn [result calls final]. rewrite exec_bind. reflexivity. }
    assert (Hrest : after base (fun _ w' =>
                        exec (if do_ri
                              then ds <- glob (csvdir +:+ "/" +:+ "RI_[0-9]*") ;;
                                   for_each ds (fun ri_csvdir =>
                                     _create_set_of_binary_files
                                       INPUT_FILES ri_csvdir
                                       (os_path_join bindir (os_path_basename ri_csvdir)) true)
                              else Ret tt) w')
                    = after base (fun _ _ =>
                        Outcome ((if do_ri then [os_listdir csvdir] else []) ++ calls passes)
                                (result passes) (final passes))).
    { unfold after. destruct (result base) as [e|[]]; [done|].
      unfold passes, layers. destruct do_ri.
      - rewrite exec_bind, exec_glob_RI by done. unfold after. cbn [result calls final].
        rewrite exec_for_each_map. done.
      - cbn [for_each exec calls result final app]. done. }
    rewrite Ho. cbv zeta. rewrite Hrest. unfold after.
    destruct (result base) as [e|[]]; cbn [result calls final].
    + repeat split. unfold tool_runs. rewrite !omap_app.
      by destruct (Str.startswith "/" csv_directory), (Str.startswith "/" bin_directory).
    + repeat split. unfold tool_runs. rewrite !omap_app.
      by destruct (Str.startswith "/" csv_directory), (Str.startswith "/" bin_directory),
                  do_ri.
  - intros n Hn. unfold layers. destruct do_ri.
    + rewrite list_elem_of_filter, Is_true_true. naive_solver.
    + split; [by intros ?%elem_of_nil|by intros [? _]].
  - apply RI_digits_ri_layer_name.
  - intros n Hn.
    rewrite os_path_join_plain by (done || by apply contains_slash_startswith).
    split; [done|]. unfold os_path_basename. by rewrite os_path_split_tail.
Qed.

Lemma ri_passes_follow_glob_pattern_witness :
  final LayeredRun.converted = final (after LayeredRun.base (fun _ _ => LayeredRun.passes)).
Proof.
  exact (proj1 (proj2 (proj1 (ri_passes_follow_glob_pattern
                                Sample.loc_acc_cov "/csv" "/bin" false true
                                SampleWorlds.layered_csv eq_refl eq_refl)))).
Defined.

(** C4, as stated, fails: the CSV directory of [SampleWorlds.layered_csv]
    has an entry [RI_1x], which is not named [RI_<digits>]; with [do_ri] on, a
    pass runs for it all the same and creates [/bin/RI_1x]. *)
Lemma pass_runs_for_entry_that_is_no_layer :
  ¬ only_digit_layers_converted (final LayeredRun.converted) "/bin"
                                (listing SampleWorlds.layered_csv "/csv").
Proof.
  intros H. specialize (H "RI_1x").
  assert (Hin : "RI_1x" ∈ listing SampleWorlds.layered_csv "/csv").
  { vm_compute. repeat constructor. }
  specialize (H Hin eq_refl). vm_compute in H. discriminate H.
Qed.

(** ** Path resolution and the removal of a file *)

Lemma kind_at_nil (t : node) : kind_at t [] = Some (kind_of t).
Proof. reflexivity. Qed.

Lemma kind_at_cons (c : string) (p : list string) (t : node) :
  kind_at t (c :: p) = match t with
                       | Dir m => m !! c ≫= fun n => kind_at n p
                       | _ => None
                       end.
Proof.
  unfold kind_at. simpl. destruct t as [d|m|target]; try done. by destruct (m !! c).
Qed.

Lemma kind_at_below_leaf (n : node) (p : list string) :
  leaf n -> p ≠ [] -> kind_at n p = None.
Proof. intros Hn Hp. destruct p; [done|]. rewrite kind_at_cons. by destruct n. Qed.

(** removing a leaf: its path is gone, no other path changes kind *)
Lemma kind_at_delete (q : list string) :
  ∀ (t n : node), q ≠ [] -> FS.lookup_phys q t = Some n -> leaf n ->
  ∀ p, kind_at (FS.set_at q None t) p = if decide (p = q) then None else kind_at t p.
Proof.
  induction q as [|c q IH]; [done|]. intros t n _ Hq Hleaf p.
  destruct t as [d|m|target]; try done. simpl in Hq.
  destruct (m !! c) as [n'|] eqn:Hc; [|done]. simpl in Hq.
  destruct p as [|c' p].
  - by rewrite decide_False.
  - cbn [FS.set_at]. rewrite !kind_at_cons, lookup_partial_alter.
    destruct (decide (c = c')) as [<-|Hne].
    + rewrite Hc. destruct q as [|c2 q].
      * simpl in Hq. simplify_eq. simpl.
        destruct (decide (c :: p = [c])) as [|Hp]; [done|].
        rewrite kind_at_below_leaf; [done..|]. congruence.
      * simpl. rewrite (IH n' n) by done.
        destruct (decide (p = c2 :: q)) as [->|Hp].
        -- by rewrite decide_True.
        -- rewrite decide_False by congruence. done.
    + rewrite decide_False by congruence. done.
Qed.

Lemma walk_with_cons (t : node) (follow creat : bool) via (stack : list string)
      (c : string) (rest : list string) :
  FS.walk_with t follow creat via stack (c :: rest)
  = match kind_at t stack with
    | Some KDir =>
        if String.eqb c "" || String.eqb c "." then FS.walk_with t follow creat via stack rest
        else if String.eqb c ".."
             then FS.walk_with t follow creat via (removelast stack) rest
             else
               match kind_at t (stack ++ [c]) with
               | Some (KLink target) =>
                   if FS.is_nil rest && negb follow then Some (stack ++ [c])
                   else via (if Str.startswith "/" target then [] else stack)
                            (Str.split_slash target ++ rest)
               | Some _ => FS.walk_with t follow creat via (stack ++ [c]) rest
               | None => if FS.is_nil rest && creat then Some (stack ++ [c]) else None
               end
    | _ => None
    end.
Proof.
  unfold kind_at. cbn [FS.walk_with].
  destruct (FS.lookup_phys stack t) as [[d|m|target]|]; try done. cbn [fmap option_fmap option_map kind_of].
  destruct (String.eqb c "" || String.eqb c "."); [done|].
  destruct (String.eqb c ".."); [done|].
  by destruct (FS.lookup_phys (stack ++ [c]) t) as [[d|m'|target]|].
Qed.

Section Removal.
Variables t t' : node.
Variable q : list string.
Hypothesis removed : ∀ p, kind_at t' p = if decide (p = q) then None else kind_at t p.

(** what resolves once the leaf is gone resolved before, to the same place *)
Lemma walk_with_mono (follow : bool) via via' :
  (∀ s td r, via' s td = Some r -> via s td = Some r) ->
  ∀ todo stack r,
    FS.walk_with t' follow false via' stack todo = Some r ->
    FS.walk_with t follow false via stack todo = Some r.
Proof.
  intros Hvia. induction todo as [|c rest IH]; intros stack r; [done|].
  rewrite !walk_with_cons, !removed.
  destruct (decide (stack = q)); [done|].
  destruct (kind_at t stack) as [[| |target]|]; try done.
  destruct (String.eqb c "" || String.eqb c "."); [by apply IH|].
  destruct (String.eqb c ".."); [by apply IH|].
  destruct (decide (stack ++ [c] = q)); [by rewrite andb_false_r|].
  destruct (kind_at t (stack ++ [c])) as [[| |target]|]; try by apply IH.
  - destruct (FS.is_nil rest && negb follow); [done|]. apply Hvia.
  - by rewrite andb_false_r.
Qed.

Lemma walk_mono (follow : bool) (links : nat) :
  ∀ stack todo r,
    FS.walk links t' follow false stack todo = Some r ->
    FS.walk links t follow false stack todo = Some r.
Proof.
  induction links as [|l IH]; intros stack todo r; simpl.
  - by apply walk_with_mono.
  - apply walk_with_mono. apply IH.
Qed.

(** the path of the removed leaf no longer leads anywhere *)
Lemma walk_with_removed via via' :
  (∀ s td r, via s td = Some q -> via' s td = Some r -> kind_at t' r = None) ->
  ∀ todo stack r,
    FS.walk_with t false false via stack todo = Some q ->
    FS.walk_with t' true false via' stack todo = Some r ->
    kind_at t' r = None.
Proof.
  intros Hvia. induction todo as [|c rest IH]; intros stack r.
  - simpl. intros [= ->] [= <-]. by rewrite removed, decide_True.
  - rewrite !walk_with_cons, (removed stack), (removed (stack ++ [c])).
    destruct (decide (stack = q)); [done|].
    destruct (kind_at t stack) as [[| |target]|]; try done.
    destruct (String.eqb c "" || String.eqb c "."); [by apply IH|].
    destruct (String.eqb c ".."); [by apply IH|].
    destruct (decide (stack ++ [c] = q)); [by rewrite !andb_false_r|].
    destruct (kind_at t (stack ++ [c])) as [[| |target]|]; try by apply IH.
    + rewrite andb_false_r. cbn [negb]. rewrite andb_true_r.
      destruct (FS.is_nil rest); [congruence|]. apply Hvia.
    + by rewrite andb_false_r.
Qed.

Lemma walk_removed (links : nat) :
  ∀ stack todo r,
    FS.walk links t false false stack todo = Some q ->
    FS.walk links t' true false stack todo = Some r ->
    kind_at t' r = None.
Proof.
  induction links as [|l IH]; intros stack todo r; simpl.
  - by apply walk_with_removed.
  - apply walk_with_removed. apply IH.
Qed.

End Removal.

(** a link in last position: followed or not, the path resolves *)
Lemma walk_with_nofollow (t : node) via via' :
  (∀ s td r, via' s td = Some r ->
             ∃ q, via s td = Some q ∧ (q = r ∨ ∃ target, kind_at t q = Some (KLink target))) ->
  ∀ todo stack r,
    FS.walk_with t true false via' stack todo = Some r ->
    ∃ q, FS.walk_with t false false via stack todo = Some q
         ∧ (q = r ∨ ∃ target, kind_at t q = Some (KLink target)).
Proof.
  intros Hvia. induction todo as [|c rest IH]; intros stack r.
  - simpl. intros [= <-]. eauto.
  - rewrite !walk_with_cons.
    destruct (kind_at t stack) as [[| |target]|]; try done.
    destruct (String.eqb c "" || String.eqb c "."); [by apply IH|].
    destruct (String.eqb c ".."); [by apply IH|].
    destruct (kind_at t (stack ++ [c])) as [[| |target]|] eqn:E; try by apply IH.
    + rewrite andb_false_r. cbn [negb]. rewrite andb_true_r.
      destruct (FS.is_nil rest); [|by apply Hvia].
      intros _. exists (stack ++ [c]). split; [done|]. right. eauto.
    + by rewrite andb_false_r.
Qed.

Lemma walk_nofollow (t : node) (links : nat) :
  ∀ stack todo r,
    FS.walk links t true false stack todo = Some r ->
    ∃ q, FS.walk links t false false stack todo = Some q
         ∧ (q = r ∨ ∃ target, kind_at t q = Some (KLink target)).
Proof.
  induction links as [|l IH]; intros stack todo r; simpl.
  - by apply walk_with_nofollow.
  - apply walk_with_nofollow. apply IH.
Qed.

Lemma tree_put (w : world) (q : list string) (v : option node) :
  FS.tree (FS.put w q v) = FS.set_at q v (FS.tree w) ∧ cwd (FS.put w q v) = cwd w.
Proof.
  unfold FS.put, FS.tree. destruct q as [|c q]; [done|]. done.
Qed.

Lemma kind_at_Some (t : node) (p : list string) :
  is_Some (kind_at t p) <-> is_Some (FS.lookup_phys p t).
Proof. unfold kind_at. by rewrite fmap_is_Some. Qed.

Lemma kind_at_leaf (t : node) (p : list string) (n : node) :
  FS.lookup_phys p t = Some n -> (leaf n <-> kind_at t p ≠ Some KDir).
Proof. unfold kind_at. intros ->. by destruct n. Qed.

(** what a successful [os.remove] does to the tree *)
Lemma remove_removed (w w' : world) (p : string) :
  FS.remove w p = (inr tt, w') ->
  ∃ q, FS.resolve w false false p = Some q
       ∧ cwd w' = cwd w
       ∧ ∀ p', kind_at (FS.tree w') p'
               = if decide (p' = q) then None else kind_at (FS.tree w) p'.
Proof.
  unfold FS.remove. destruct (FS.resolve w false false p) as [q|] eqn:Hq; [|done].
  destruct (FS.lookup_phys q (FS.tree w)) as [n|] eqn:Hn; [|done].
  destruct n as [d|m|target]; try done; intros [= <-]; exists q;
    destruct (tree_put w q None) as [-> ->]; (split; [done|]); (split; [done|]);
    (eapply kind_at_delete; [|exact Hn|done]); by intros ->.
Qed.

Lemma remove_failed (w w' : world) (p : string) (e : cause) :
  FS.remove w p = (inl e, w') -> w' = w.
Proof.
  unfold FS.remove. destruct (FS.resolve w false false p) as [q|]; [|by intros [= _ <-]].
  destruct (FS.lookup_phys q (FS.tree w)) as [[d|m|target]|]; by intros [= _ <-].
Qed.

Lemma exists_resolve (w : world) (p : string) :
  FS.exists_ w p = true <->
  ∃ r, FS.resolve w true false p = Some r ∧ is_Some (kind_at (FS.tree w) r).
Proof.
  unfold FS.exists_, FS.stat. destruct (FS.resolve w true false p) as [r|]; simpl.
  - split.
    + intros H. exists r. split; [done|]. apply kind_at_Some.
      destruct (FS.lookup_phys r (FS.tree w)); [by eauto|done].
    + intros (r0 & [= <-] & H%kind_at_Some). by destruct H as [n ->].
  - split; [done|]. by intros (? & ? & _).
Qed.

(** a removed file is gone *)
Lemma remove_exists (w w' : world) (p : string) :
  FS.remove w p = (inr tt, w') -> FS.exists_ w' p = false.
Proof.
  intros (q & Hq & Hcwd & Hkind)%remove_removed.
  destruct (FS.exists_ w' p) eqn:E; [|done]. exfalso.
  apply exists_resolve in E as (r & Hr & [k Hk]).
  unfold FS.resolve in *. destruct (String.eqb p ""); [done|]. rewrite Hcwd in Hr.
  by rewrite (walk_removed _ _ q Hkind _ _ _ _ Hq Hr) in Hk.
Qed.

(** [os.remove] does not bring anything into existence *)
Lemma remove_keeps_absent (w w' : world) (p p' : string) (r : cause + unit) :
  FS.remove w p = (r, w') -> FS.exists_ w p' = false -> FS.exists_ w' p' = false.
Proof.
  destruct r as [e|[]]; [by intros ->%remove_failed|].
  intros (q & Hq & Hcwd & Hkind)%remove_removed Habsent.
  destruct (FS.exists_ w' p') eqn:E; [|done].
  apply exists_resolve in E as (r & Hr & [k Hk]).
  assert (FS.exists_ w p' = true); [|congruence].
  apply exists_resolve. exists r. rewrite Hkind in Hk. destruct (decide (r = q)); [done|].
  split; [|by eauto].
  unfold FS.resolve in *. destruct (String.eqb p' ""); [done|]. rewrite Hcwd in Hr.
  by apply (walk_mono _ _ q Hkind) in Hr.
Qed.

Lemma isdir_resolve (w : world) (p : string) :
  FS.isdir w p = true <->
  ∃ r, FS.resolve w true false p = Some r ∧ kind_at (FS.tree w) r = Some KDir.
Proof.
  unfold FS.isdir, FS.stat, kind_at. destruct (FS.resolve w true false p) as [r|]; simpl.
  - split.
    + intros H. exists r. split; [done|].
      by destruct (FS.lookup_phys r (FS.tree w)) as [[d|m|target]|].
    + intros (r0 & [= <-] & H).
      by destruct (FS.lookup_phys r (FS.tree w)) as [[d|m|target]|].
  - split; [done|]. by intros (? & ? & _).
Qed.

Lemma remove_keeps_nondir (w w' : world) (p p' : string) (r : cause + unit) :
  FS.remove w p = (r, w') -> FS.isdir w p' = false -> FS.isdir w' p' = false.
Proof.
  destruct r as [e|[]]; [by intros ->%remove_failed|].
  intros (q & Hq & Hcwd & Hkind)%remove_removed Hnondir.
  destruct (FS.isdir w' p') eqn:E; [|done].
  apply isdir_resolve in E as (r & Hr & Hk).
  assert (FS.isdir w p' = true); [|congruence].
  apply isdir_resolve. exists r. rewrite Hkind in Hk. destruct (decide (r = q)); [done|].
  split; [|done].
  unfold FS.resolve in *. destruct (String.eqb p' ""); [done|]. rewrite Hcwd in Hr.
  by apply (walk_mono _ _ q Hkind) in Hr.
Qed.

(** what exists and is no directory can be removed *)
Lemma remove_succeeds (w : world) (p : string) :
  FS.exists_ w p = true -> FS.isdir w p = false ->
  ∃ w', FS.remove w p = (inr tt, w').
Proof.
  intros (r & Hr & [k Hk])%exists_resolve Hnondir.
  assert (Hk' : k ≠ KDir).
  { intros ->. assert (FS.isdir w p = true); [|congruence]. apply isdir_resolve. eauto. }
  unfold FS.remove, FS.resolve in *. destruct (String.eqb p ""); [done|].
  apply walk_nofollow in Hr as (q & -> & Hq).
  assert (Hleaf : ∃ k', kind_at (FS.tree w) q = Some k' ∧ k' ≠ KDir).
  { destruct Hq as [->|[target ->]]; eauto. }
  destruct Hleaf as (k' & Hkq & Hne). unfold kind_at in Hkq.
  destruct (FS.lookup_phys q (FS.tree w)) as [[d|m|target]|]; simplify_eq/=; eauto.
Qed.

Section Cleanup.
Variable directory : string.

Lemma exec_remove_if_exists (file : string) (w : world) :
  let p := os_path_join directory file in
  exec (remove_if_exists directory file) w
  = if FS.exists_ w p
    then Outcome [os_path_exists p; os_remove p]
                 (match fst (FS.remove w p) with inl e => inl (Raised e) | inr x => inr x end)
                 (snd (FS.remove w p))
    else Outcome [os_path_exists p] (inr tt) w.
Proof.
  cbv zeta. unfold remove_if_exists. cbn [bind exists_ ask exec handle fst snd].
  destruct (FS.exists_ w (os_path_join directory file)); [|done].
  cbn [remove exec handle]. by destruct (FS.remove w _) as [[e|[]] w'].
Qed.

Lemma cleanup_keeps_absent (files : list string) (w : world) (p' : string) :
  FS.exists_ w p' = false ->
  FS.exists_ (final (exec (for_each files (remove_if_exists directory)) w)) p' = false.
Proof.
  revert w. induction files as [|f files IH]; intros w H; [done|].
  rewrite exec_for_each_cons, exec_remove_if_exists. cbv zeta. unfold after.
  destruct (FS.exists_ w (os_path_join directory f)); cbn [calls result final]; [|by apply IH].
  destruct (FS.remove w (os_path_join directory f)) as [[e|[]] w'] eqn:E;
    cbn [calls result final fst snd].
  - by apply remove_failed in E as ->.
  - apply IH. by eapply remove_keeps_absent.
Qed.

Lemma cleanup_removes (files : list string) (w : world) :
  returns (exec (for_each files (remove_if_exists directory)) w) ->
  ∀ f, f ∈ files ->
       FS.exists_ (final (exec (for_each files (remove_if_exists directory)) w))
                  (os_path_join directory f) = false.
Proof.
  revert w. induction files as [|f files IH]; intros w Hret g Hg; [by apply elem_of_nil in Hg|].
  revert Hret. rewrite exec_for_each_cons, exec_remove_if_exists. cbv zeta. unfold after, returns.
  destruct (FS.exists_ w (os_path_join directory f)) eqn:Ef; cbn [calls result final].
  - destruct (FS.remove w (os_path_join directory f)) as [[e|[]] w'] eqn:E;
      cbn [calls result final fst snd]; [done|].
    intros Hret. apply elem_of_cons in Hg as [->|Hg]; [|by apply IH].
    apply cleanup_keeps_absent. by eapply remove_exists.
  - intros Hret. apply elem_of_cons in Hg as [->|Hg]; [|by apply IH].
    by apply cleanup_keeps_absent.
Qed.

Lemma cleanup_again (files : list string) (w : world) :
  let once := exec (for_each files (remove_if_exists directory)) w in
  let twice := exec (for_each files (remove_if_exists directory)) (final once) in
  result twice = result once ∧ final twice = final once.
Proof.
  cbv zeta. revert w. induction files as [|f files IH]; intros w; [done|].
  pose proof (exec_for_each_cons f files (remove_if_exists directory) w) as E1.
  rewrite exec_remove_if_exists in E1. cbv zeta in E1. unfold after in E1.
  destruct (FS.exists_ w (os_path_join directory f)) eqn:Ef.
  - destruct (FS.remove w (os_path_join directory f)) as [[e|[]] w'] eqn:E;
      cbn [calls result final fst snd] in E1; rewrite E1; cbn [calls result final].
    + apply remove_failed in E as Hw. subst w'. by rewrite E1.
    + set (w1 := final (exec (for_each files (remove_if_exists directory)) w')).
      assert (Habsent : FS.exists_ w1 (os_path_join directory f) = false).
      { apply cleanup_keeps_absent. by eapply remove_exists. }
      rewrite exec_for_each_cons, exec_remove_if_exists. cbv zeta. rewrite Habsent.
      unfold after. cbn [calls result final]. apply IH.
  - cbn [calls result final] in E1. rewrite E1. cbn [calls result final].
    set (w1 := final (exec (for_each files (remove_if_exists directory)) w)).
    assert (Habsent : FS.exists_ w1 (os_path_join directory f) = false).
    { by apply cleanup_keeps_absent. }
    rewrite exec_for_each_cons, exec_remove_if_exists. cbv zeta. rewrite Habsent.
    unfold after. cbn [calls result final]. apply IH.
Qed.

Lemma cleanup_nothing (files : list string) (w : world) :
  (∀ f, f ∈ files -> FS.exists_ w (os_path_join directory f) = false) ->
  let o := exec (for_each files (remove_if_exists directory)) w in
  result o = inr tt ∧ final o = w.
Proof.
  cbv zeta. induction files as [|f files IH]; intros H; [done|].
  rewrite exec_for_each_cons, exec_remove_if_exists. cbv zeta. rewrite H by left.
  unfold after. cbn [calls result final]. apply IH. intros g Hg. apply H. by right.
Qed.

Lemma cleanup_keeps_nondir (files : list string) (w : world) (p' : string) :
  FS.isdir w p' = false ->
  FS.isdir (final (exec (for_each files (remove_if_exists directory)) w)) p' = false.
Proof.
  revert w. induction files as [|f files IH]; intros w H; [done|].
  rewrite exec_for_each_cons, exec_remove_if_exists. cbv zeta. unfold after.
  destruct (FS.exists_ w (os_path_join directory f)); cbn [calls result final]; [|by apply IH].
  destruct (FS.remove w (os_path_join directory f)) as [[e|[]] w'] eqn:E;
    cbn [calls result final fst snd].
  - by apply remove_failed in E as ->.
  - apply IH. by eapply remove_keeps_nondir.
Qed.

Lemma cleanup_returns (files : list string) (w : world) :
  (∀ f, f ∈ files -> FS.isdir w (os_path_join directory f) = false) ->
  returns (exec (for_each files (remove_if_exists directory)) w).
Proof.
  revert w. induction files as [|f files IH]; intros w H; [done|].
  rewrite exec_for_each_cons, exec_remove_if_exists. cbv zeta. unfold after, returns.
  destruct (FS.exists_ w (os_path_join directory f)) eqn:Ef; cbn [calls result final].
  - destruct (remove_succeeds w (os_path_join directory f)) as [w' E]; [done|by apply H; left|].
    rewrite E. cbn [calls result final fst snd]. apply IH.
    intros g Hg. eapply remove_keeps_nondir; [done|]. apply H. by right.
  - apply IH. intros g Hg. apply H. by right.
Qed.

Lemma cleanup_calls (files : list string) :
  only_calls (cleanup_call (map (os_path_join directory) files))
             (for_each files (remove_if_exists directory)).
Proof.
  apply only_calls_for_each. intros f Hf.
  assert (Hin : os_path_join directory f ∈ map (os_path_join directory) files).
  { apply list_elem_of_fmap. eauto. }
  unfold remove_if_exists. simpl. split; [done|]. intros [|]; simpl; [|done].
  split; [done|]. by intros [e|[]].
Qed.

End Cleanup.

(** C9: [cleanup_bin_directory] goes through the archive name and
    [<name>.bin] for every key of the registry; it only tests these paths
    for existence and removes those that exist.  A target that does not exist
    is passed over: when none exists, the call returns and changes nothing.
    When the call returns, none of the targets exists any more, and it
    returns whenever no target is a directory.  Run again on the state it
    left, it gives the same result and leaves that state as it is. *)
Theorem cleanup_bin_directory_idempotent
        (TAR_FILE : string) (INPUT_FILES : registry) (directory : string) (w : world) :
  let targets := map (os_path_join directory) (cleanup_targets TAR_FILE INPUT_FILES) in
  let once := exec (cleanup_bin_directory TAR_FILE INPUT_FILES directory) w in
  let twice := exec (cleanup_bin_directory TAR_FILE INPUT_FILES directory) (final once) in
  cleanup_targets TAR_FILE INPUT_FILES
  = TAR_FILE :: map (fun name => name +:+ ".bin") (viewkeys INPUT_FILES)
  ∧ Forall (cleanup_call targets) (calls once)
  ∧ ((∀ p, p ∈ targets -> FS.exists_ w p = false) -> result once = inr tt ∧ final once = w)
  ∧ (returns once -> ∀ p, p ∈ targets -> FS.exists_ (final once) p = false)
  ∧ ((∀ p, p ∈ targets -> FS.isdir w p = false) -> returns once)
  ∧ (result twice = result once ∧ final twice = final once).
Proof.
  intros targets once twice.
  change (cleanup_bin_directory TAR_FILE INPUT_FILES directory)
    with (for_each (cleanup_targets TAR_FILE INPUT_FILES) (remove_if_exists directory))
    in once, twice.
  assert (Hin : ∀ f, f ∈ cleanup_targets TAR_FILE INPUT_FILES ->
                     os_path_join directory f ∈ targets).
  { intros f Hf. apply list_elem_of_fmap. eauto. }
  split; [done|]. split; [apply only_calls_exec, cleanup_calls|].
  split; [|split; [|split]].
  - intros H. apply cleanup_nothing. auto.
  - intros Hret p (f & -> & Hf)%list_elem_of_fmap. by apply cleanup_removes.
  - intros H. apply cleanup_returns. auto.
  - apply cleanup_again.
Qed.

Lemma cleanup_bin_directory_idempotent_witness :
  FS.exists_ (final (exec (cleanup_bin_directory Sample.TAR_FILE Sample.loc_acc_cov "/in")
                          SampleWorlds.converted)) "/in/loc.bin" = false.
Proof.
  refine (proj1 (proj2 (proj2 (proj2 (cleanup_bin_directory_idempotent
            Sample.TAR_FILE Sample.loc_acc_cov "/in" SampleWorlds.converted)))) _
            "/in/loc.bin" _).
  - vm_compute. exact I.
  - vm_compute. right. left.
Defined.

(** ** The tool check *)

Lemma tool_check_found (w : world) (files : list input_file) :
  (∀ t, t ∈ map conversion_tool files -> ToolCheck.found w t = true) ->
  ToolCheck.exec (ToolCheck.for_each files ToolCheck.check_tool) w
  = (map ToolCheck.shutilwhich_which (map conversion_tool files), inr tt).
Proof.
  induction files as [|f files IH]; intros H; [done|].
  cbn [ToolCheck.for_each]. unfold ToolCheck.check_tool at 1.
  cbn [ToolCheck.bind ToolCheck.which ToolCheck.exec ToolCheck.handle map fst snd].
  rewrite (H (conversion_tool f)) by left. cbn [negb ToolCheck.bind].
  rewrite IH; [done|]. intros t Ht. apply H. by right.
Qed.

Lemma tool_check_missing (w : world) (files : list input_file)
      (before after_ : list string) (t : string) :
  map conversion_tool files = before ++ t :: after_ ->
  (∀ t', t' ∈ before -> ToolCheck.found w t' = true) ->
  ToolCheck.found w t = false ->
  ToolCheck.exec (ToolCheck.for_each files ToolCheck.check_tool) w
  = (map ToolCheck.shutilwhich_which (before ++ [t])
     ++ [ToolCheck.logging_error (ToolCheck.tool_missing t)],
     inl (OasisException (ToolCheck.tool_missing t))).
Proof.
  revert before. induction files as [|f files IH]; intros before Hmap Hfound Hmissing.
  - by destruct before.
  - cbn [ToolCheck.for_each]. unfold ToolCheck.check_tool at 1.
    cbn [ToolCheck.bind ToolCheck.which ToolCheck.exec ToolCheck.handle fst snd].
    destruct before as [|b before]; simpl in Hmap; injection Hmap as Hf Hrest.
    + rewrite Hf, Hmissing. reflexivity.
    + rewrite Hf, (Hfound b) by left. cbn [negb ToolCheck.bind].
      rewrite (IH before Hrest); [done| |done]. intros t' Ht'. apply Hfound. by right.
Qed.

Lemma tool_check_then_true (w : world) (m : ToolCheck.prog unit) :
  ToolCheck.exec (ToolCheck.bind m (fun _ => ToolCheck.Ret true)) w
  = (fst (ToolCheck.exec m w),
     match snd (ToolCheck.exec m w) with inl e => inl e | inr _ => inr true end).
Proof.
  induction m as [[]|e|c k IH]; simpl; [by rewrite ?app_nil_r..|].
  by rewrite IH.
Qed.

Lemma first_not_found (w : world) (l : list string) :
  (∀ t, t ∈ l -> ToolCheck.found w t = true)
  ∨ ∃ before t after_, l = before ++ t :: after_
       ∧ (∀ t', t' ∈ before -> ToolCheck.found w t' = true)
       ∧ ToolCheck.found w t = false.
Proof.
  induction l as [|x l IH]; [left; by intros t Ht%elem_of_nil|].
  destruct (ToolCheck.found w x) eqn:E.
  - destruct IH as [IH|(before & t & after_ & -> & Hb & Ht)].
    + left. intros t [->|Ht]%elem_of_cons; auto.
    + right. exists (x :: before), t, after_. split; [done|]. split; [|done].
      intros t' [->|Ht']%elem_of_cons; auto.
  - right. exists [], x, l. split; [done|]. split; [|done]. by intros t' Ht'%elem_of_nil.
Qed.

Lemma tool_check_outcome
        (INPUT_FILES : registry) (do_il : bool) (w : world) :
  let o := ToolCheck.exec (ToolCheck.check_conversion_tools INPUT_FILES do_il) w in
  (snd o = inr true <->
   ∀ t, t ∈ ToolCheck.tools_looked_for INPUT_FILES do_il -> ToolCheck.found w t = true)
  ∧ (snd o = inr true ->
     fst o = map ToolCheck.shutilwhich_which (ToolCheck.tools_looked_for INPUT_FILES do_il)).
Proof.
  cbv zeta.
  change (ToolCheck.check_conversion_tools INPUT_FILES do_il)
    with (ToolCheck.bind
            (ToolCheck.for_each
               (if do_il then viewvalues INPUT_FILES
                else filter (fun f => negb (String.eqb (type f) "il")) (viewvalues INPUT_FILES))
               ToolCheck.check_tool)
            (fun _ => ToolCheck.Ret true)).
  rewrite tool_check_then_true. unfold ToolCheck.tools_looked_for.
  set (files := if do_il then _ else _).
  destruct (first_not_found w (map conversion_tool files))
    as [Hall|(before & t & after_ & Hl & Hb & Ht)].
  - rewrite tool_check_found by done. simpl. split; [done|done].
  - rewrite (tool_check_missing w files before after_ t) by done. simpl. split.
    + split; [done|]. intros H. rewrite H in Ht; [done|]. rewrite Hl.
      apply elem_of_app. right. left.
    + done.
Qed.

(** X1: [check_conversion_tools] returns [True] exactly when every tool of
    the active file set is found; it then has asked for each tool once, in
    registry order. *)
Theorem check_conversion_tools_all_found
        (INPUT_FILES : registry) (do_il : bool) (w : world) :
  let o := ToolCheck.exec (ToolCheck.check_conversion_tools INPUT_FILES do_il) w in
  (snd o = inr true <->
   ∀ t, t ∈ ToolCheck.tools_looked_for INPUT_FILES do_il -> ToolCheck.found w t = true)
  ∧ (snd o = inr true ->
     fst o = map ToolCheck.shutilwhich_which (ToolCheck.tools_looked_for INPUT_FILES do_il)).
Proof. apply tool_check_outcome. Qed.

(** X2: when a tool of the active file set is not found,
    [check_conversion_tools] raises [OasisException] naming the first such
    tool in registry order, after logging the same message as an error; the
    tools after it are not looked for. *)
Theorem check_conversion_tools_first_missing
        (INPUT_FILES : registry) (do_il : bool) (w : world)
        (before after_ : list string) (t : string) :
  ToolCheck.tools_looked_for INPUT_FILES do_il = before ++ t :: after_ ->
  (∀ t', t' ∈ before -> ToolCheck.found w t' = true) ->
  ToolCheck.found w t = false ->
  ToolCheck.exec (ToolCheck.check_conversion_tools INPUT_FILES do_il) w
  = (map ToolCheck.shutilwhich_which (before ++ [t])
     ++ [ToolCheck.logging_error ("Failed to find conversion tool: " +:+ t)],
     inl (OasisException ("Failed to find conversion tool: " +:+ t))).
Proof.
  intros Hl Hb Ht.
  change (ToolCheck.check_conversion_tools INPUT_FILES do_il)
    with (ToolCheck.bind
            (ToolCheck.for_each
               (if do_il then viewvalues INPUT_FILES
                else filter (fun f => negb (String.eqb (type f) "il")) (viewvalues INPUT_FILES))
               ToolCheck.check_tool)
            (fun _ => ToolCheck.Ret true)).
  rewrite tool_check_then_true.
  by rewrite (tool_check_missing w _ before after_ t).
Qed.

Lemma check_conversion_tools_first_missing_witness :
  ToolCheck.exec (ToolCheck.check_conversion_tools SampleTools.gul_and_il true)
                 SampleWorlds.empty_input
  = ([ToolCheck.shutilwhich_which "T"; ToolCheck.shutilwhich_which "fmprogrammetobin";
      ToolCheck.logging_error "Failed to find conversion tool: fmprogrammetobin"],
     inl (OasisException "Failed to find conversion tool: fmprogrammetobin")).
Proof.
  refine (check_conversion_tools_first_missing
            SampleTools.gul_and_il true SampleWorlds.empty_input
            ["T"] ["fmxreftobin"] "fmprogrammetobin" eq_refl _ eq_refl).
  intros t' Ht'. apply list_elem_of_singleton in Ht' as ->. reflexivity.
Defined.




(** ** Checks only read *)

Lemma read_calls_keep_world {A : Type} (m : prog A) (w : world) :
  only_calls read_call m -> final (exec m w) = w.
Proof.
  revert w. induction m as [a|e|c k IH]; intros w; [done..|].
  intros [Hc Hk]. simpl. rewrite IH by apply Hk. by destruct c.
Qed.

Lemma only_calls_concat_map {X Y : Type} (P : call -> Prop) (xs : list X)
      (f : X -> prog (list Y)) :
  (∀ x, only_calls P (f x)) -> only_calls P (concat_map_prog xs f).
Proof.
  intros Hf. induction xs as [|x xs IH]; [done|]. simpl.
  apply only_calls_bind; [apply Hf|]. intros ys.
  apply only_calls_bind; [apply IH|]. done.
Qed.

Lemma glob1_reads (dirname pattern : string) : only_calls read_call (glob1 dirname pattern).
Proof. unfold glob1. simpl. split; [done|]. by intros [e|names]. Qed.

Lemma glob0_reads (dirname basename : string) : only_calls read_call (glob0 dirname basename).
Proof.
  unfold glob0. destruct (String.eqb basename ""); simpl; (split; [done|]); by intros [|].
Qed.

Lemma iglob_reads (fuel : nat) (pathname : string) : only_calls read_call (iglob fuel pathname).
Proof.
  revert pathname. induction fuel as [|fuel IH]; intros pathname; [done|].
  cbn [iglob]. destruct (os_path_split pathname) as [dirname basename].
  destruct (negb (has_magic pathname)).
  - destruct (negb (String.eqb basename "")); simpl; (split; [done|]); by intros [|].
  - destruct (String.eqb dirname ""); [apply glob1_reads|].
    apply only_calls_bind.
    + destruct (negb (String.eqb dirname pathname) && has_magic dirname); [apply IH|done].
    + intros dirs. apply only_calls_concat_map. intros d.
      apply only_calls_bind; [|done].
      destruct (has_magic basename); [apply glob1_reads|apply glob0_reads].
Qed.

Lemma check_each_reads (INPUT_FILES : registry) (dir : string) (do_il check_binaries : bool) :
  only_calls read_call (_check_each_inputs_directory INPUT_FILES dir do_il check_binaries).
Proof.
  unfold _check_each_inputs_directory. apply only_calls_for_each. intros n _.
  simpl. split; [done|]. intros [|]; simpl; [|done].
  destruct check_binaries; simpl; [|done]. split; [done|]. by intros [|].
Qed.

(** X4: [check_inputs_directory] only looks: whatever its arguments and the
    state, it makes no call other than existence tests and directory
    listings, and leaves the file system as it found it. *)
Theorem check_inputs_directory_reads_only
        (INPUT_FILES : registry) (dir : string) (do_il do_ri check_binaries : bool)
        (w : world) :
  let o := exec (check_inputs_directory INPUT_FILES dir do_il do_ri check_binaries) w in
  Forall read_call (calls o) ∧ final o = w.
Proof.
  assert (H : only_calls read_call
                (check_inputs_directory INPUT_FILES dir do_il do_ri check_binaries)).
  { unfold check_inputs_directory. apply only_calls_bind; [apply check_each_reads|].
    intros _. destruct do_ri; [|done].
    apply only_calls_bind; [apply iglob_reads|]. intros ds.
    apply only_calls_for_each. intros d _. apply check_each_reads. }
  split; [by apply only_calls_exec|by apply read_calls_keep_world].
Qed.

(** ** More on the directory check *)

Section CheckNames.
Variables (w : world) (dir : string) (check_binaries : bool).

Lemma check_names_cons (n : string) (names : list string) :
  exec (check_names dir check_binaries (n :: names)) w
  = if FS.exists_ w (csv_of dir n)
    then if check_binaries
         then if FS.exists_ w (bin_of dir n)
              then Outcome [os_path_exists (csv_of dir n); os_path_exists (bin_of dir n)]
                           (inl (OasisException ("Binary file already exists: "
                                                   +:+ bin_of dir n))) w
              else let o := exec (check_names dir check_binaries names) w in
                   Outcome (os_path_exists (csv_of dir n) :: os_path_exists (bin_of dir n)
                              :: calls o) (result o) (final o)
         else let o := exec (check_names dir check_binaries names) w in
              Outcome (os_path_exists (csv_of dir n) :: calls o) (result o) (final o)
    else Outcome [os_path_exists (csv_of dir n)]
                 (inl (OasisException ("Failed to find " +:+ csv_of dir n))) w.
Proof.
  unfold check_names. rewrite exec_for_each_cons.
  cbn [bind exists_ ask exec handle fst snd]. fold (csv_of dir n). fold (bin_of dir n).
  destruct (FS.exists_ w (csv_of dir n)); [|done]. cbn [negb].
  destruct check_binaries; cbn [bind exec handle fst snd]; [|done].
  by destruct (FS.exists_ w (bin_of dir n)).
Qed.

Lemma check_names_returns (names : list string) :
  returns (exec (check_names dir check_binaries names) w) <->
  ∀ n, n ∈ names ->
       FS.exists_ w (csv_of dir n) = true
       ∧ (check_binaries = true -> FS.exists_ w (bin_of dir n) = false).
Proof.
  induction names as [|n names IH].
  - split; [|done]. by intros _ n Hn%elem_of_nil.
  - rewrite check_names_cons. unfold returns in *.
    destruct (FS.exists_ w (csv_of dir n)) eqn:Ecsv.
    + destruct check_binaries eqn:Ecb.
      * destruct (FS.exists_ w (bin_of dir n)) eqn:Ebin; cbn [result].
        -- split; [done|]. intros H. destruct (H n) as [_ H']; [left|]. specialize (H' eq_refl). congruence.
        -- rewrite IH. split.
           ++ intros H m [->|Hm]%elem_of_cons; auto.
           ++ intros H m Hm. apply H. by right.
      * cbn [result]. rewrite IH. split.
        -- intros H m [->|Hm]%elem_of_cons; [by split|auto].
        -- intros H m Hm. apply H. by right.
    + cbn [result]. split; [done|]. intros H. destruct (H n) as [H' _]; [left|]. congruence.
Qed.

Lemma check_names_first_missing (before after_ : list string) (n : string) :
  (∀ m, m ∈ before ->
        FS.exists_ w (csv_of dir m) = true
        ∧ (check_binaries = true -> FS.exists_ w (bin_of dir m) = false)) ->
  FS.exists_ w (csv_of dir n) = false ->
  result (exec (check_names dir check_binaries (before ++ n :: after_)) w)
  = inl (OasisException ("Failed to find " +:+ csv_of dir n)).
Proof.
  induction before as [|b before IH]; intros Hb Hn.
  - cbn [app]. rewrite check_names_cons, Hn. done.
  - change ((b :: before) ++ n :: after_) with (b :: (before ++ n :: after_)).
    rewrite check_names_cons. destruct (Hb b) as [-> Hbin]; [left|].
    destruct check_binaries.
    + rewrite Hbin by done. cbn [result]. apply IH; [|done]. intros m Hm. apply Hb. by right.
    + cbn [result]. apply IH; [|done]. intros m Hm. apply Hb. by right.
Qed.

End CheckNames.

Lemma required_names_subset (INPUT_FILES : registry) (n : string) :
  n ∈ required_names INPUT_FILES false -> n ∈ required_names INPUT_FILES true.
Proof.
  unfold required_names. intros (f & -> & Hf)%list_elem_of_fmap.
  apply list_elem_of_fmap. exists f. split; [done|].
  apply list_elem_of_filter in Hf as [Hf Hin]. apply list_elem_of_filter. split; [|done].
  apply Is_true_true. apply Is_true_true in Hf. apply negb_true_iff in Hf.
  apply orb_false_elim in Hf as [-> _]. done.
Qed.

(** X5: with [check_binaries] off, [_check_each_inputs_directory] returns
    exactly when every required CSV exists, raises ["Failed to find "] with
    the path of the first missing CSV in registry order otherwise, and tests
    nothing but the required CSV paths: binaries are not looked at. *)
Theorem check_without_binaries
        (INPUT_FILES : registry) (dir : string) (do_il : bool) (w : world) :
  let required := required_names INPUT_FILES do_il in
  let o := exec (_check_each_inputs_directory INPUT_FILES dir do_il false) w in
  (returns o <-> ∀ n, n ∈ required -> FS.exists_ w (csv_of dir n) = true)
  ∧ (∀ before n after_,
       required = before ++ n :: after_ ->
       (∀ m, m ∈ before -> FS.exists_ w (csv_of dir m) = true) ->
       FS.exists_ w (csv_of dir n) = false ->
       result o = inl (OasisException ("Failed to find " +:+ csv_of dir n)))
  ∧ Forall (fun c => ∃ n, n ∈ required ∧ c = os_path_exists (csv_of dir n)) (calls o).
Proof.
  intros required o.
  change (_check_each_inputs_directory INPUT_FILES dir do_il false)
    with (check_names dir false required) in o.
  split; [|split].
  - unfold o. rewrite check_names_returns. split.
    + intros H n Hn. by destruct (H n Hn).
    + intros H n Hn. split; [by apply H|done].
  - intros before n after_ Hreq Hb Hn. unfold o. rewrite Hreq.
    apply check_names_first_missing; [|done]. intros m Hm. split; [by apply Hb|done].
  - apply only_calls_exec. unfold check_names. apply only_calls_for_each. intros n Hn.
    simpl. split; [by exists n|]. by intros [|].
Qed.

(** X6: the files required without IL are among those required with IL: a
    directory that passes [_check_each_inputs_directory] with [do_il] on
    passes it with [do_il] off. *)
Theorem check_il_implies_gul
        (INPUT_FILES : registry) (dir : string) (check_binaries : bool) (w : world) :
  returns (exec (_check_each_inputs_directory INPUT_FILES dir true check_binaries) w) ->
  returns (exec (_check_each_inputs_directory INPUT_FILES dir false check_binaries) w).
Proof.
  change (_check_each_inputs_directory INPUT_FILES dir true check_binaries)
    with (check_names dir check_binaries (required_names INPUT_FILES true)).
  change (_check_each_inputs_directory INPUT_FILES dir false check_binaries)
    with (check_names dir check_binaries (required_names INPUT_FILES false)).
  rewrite !check_names_returns. intros H n Hn. apply H. by apply required_names_subset.
Qed.

Lemma check_il_implies_gul_witness :
  returns (exec (_check_each_inputs_directory SampleTools.gul_and_il "/in" false true)
                MoreWorlds.il_csvs).
Proof.
  refine (check_il_implies_gul SampleTools.gul_and_il "/in" true MoreWorlds.il_csvs _).
  vm_compute. exact I.
Defined.

(** ** Clean-up, then check *)

Lemma required_name_is_key (INPUT_FILES : registry) (do_il : bool) (n : string) :
  (∀ k f, (k, f) ∈ INPUT_FILES -> name f = k) ->
  n ∈ required_names INPUT_FILES do_il -> n ∈ viewkeys INPUT_FILES.
Proof.
  intros Hkeys Hn.
  assert (Hf : ∃ f, f ∈ viewvalues INPUT_FILES ∧ n = name f).
  { unfold required_names in Hn.
    destruct do_il; apply list_elem_of_fmap in Hn as (f & -> & Hf);
      apply list_elem_of_filter in Hf as [_ Hf]; eauto. }
  destruct Hf as (f & Hf & ->). unfold viewvalues, viewkeys in *.
  apply list_elem_of_fmap in Hf as ([k f'] & -> & Hkf). simpl.
  rewrite (Hkeys k f' Hkf). apply list_elem_of_fmap. by exists (k, f').
Qed.

(** X7: when every entry of the registry is filed under its own name, a
    clean-up that returns leaves no binary for the check to stumble on:
    [_check_each_inputs_directory] with [check_binaries] on, run on the
    cleaned directory, returns exactly when every required CSV exists. *)
Theorem cleanup_then_check
        (TAR_FILE : string) (INPUT_FILES : registry) (directory : string) (do_il : bool)
        (w : world) :
  (∀ k f, (k, f) ∈ INPUT_FILES -> name f = k) ->
  let cleaned := exec (cleanup_bin_directory TAR_FILE INPUT_FILES directory) w in
  returns cleaned ->
  returns (exec (_check_each_inputs_directory INPUT_FILES directory do_il true) (final cleaned))
  <-> ∀ n, n ∈ required_names INPUT_FILES do_il ->
           FS.exists_ (final cleaned) (csv_of directory n) = true.
Proof.
  intros Hkeys cleaned Hret.
  change (_check_each_inputs_directory INPUT_FILES directory do_il true)
    with (check_names directory true (required_names INPUT_FILES do_il)).
  rewrite check_names_returns. split.
  - intros H n Hn. by destruct (H n Hn).
  - intros H n Hn. split; [by apply H|]. intros _.
    change (cleanup_bin_directory TAR_FILE INPUT_FILES directory)
      with (for_each (cleanup_targets TAR_FILE INPUT_FILES) (remove_if_exists directory))
      in cleaned, Hret.
    apply (cleanup_removes directory _ w Hret (n +:+ ".bin")).
    unfold cleanup_targets. right. apply list_elem_of_fmap. exists n. split; [done|].
    by eapply required_name_is_key.
Qed.

Lemma cleanup_then_check_witness :
  returns (exec (_check_each_inputs_directory Sample.loc_acc_cov "/in" false true)
                (final (exec (cleanup_bin_directory Sample.TAR_FILE Sample.loc_acc_cov "/in")
                             SampleWorlds.stale_acc))).
Proof.
  refine (proj2 (cleanup_then_check Sample.TAR_FILE Sample.loc_acc_cov "/in" false
                                    SampleWorlds.stale_acc _ _) _).
  - intros k f Hkf. unfold Sample.loc_acc_cov in Hkf.
    repeat (apply elem_of_cons in Hkf as [Heq|Hkf]; [by injection Heq as -> ->|]).
    by apply elem_of_nil in Hkf.
  - vm_compute. exact I.
  - intros n Hn.
    change (required_names Sample.loc_acc_cov false) with ["loc"; "acc"; "cov"] in Hn.
    repeat (apply elem_of_cons in Hn as [->|Hn]; [vm_compute; reflexivity|]).
    by apply elem_of_nil in Hn.
Defined.

(** ** More on the archive check *)








(** ** More on the conversion pass *)

Lemma exec_convert_present (csv_directory bin_directory : string) (f : input_file) (w : world) :
  FS.exists_ w (csv_of csv_directory (name f)) = true ->
  let cmd := conversion_cmd csv_directory bin_directory f in
  exec (convert_input_file csv_directory bin_directory f) w
  = Outcome [os_path_exists (csv_of csv_directory (name f)); subprocess_call cmd]
            (if (fst (FS.shell w cmd) =? 0)%Z then inr tt
             else inl (OasisExceptionFrom (CalledProcessError (fst (FS.shell w cmd)) cmd)))
            (snd (FS.shell w cmd)).
Proof.
  intros H cmd. unfold convert_input_file. rewrite exec_bind, exec_exists_. unfold after.
  cbn [result calls final]. fold (csv_of csv_directory (name f)). rewrite H. cbn [negb].
  fold (bin_of bin_directory (name f)). fold (conversion_cmd csv_directory bin_directory f).
  fold cmd. rewrite exec_try_except. unfold check_call. cbn [exec handle].
  destruct (FS.shell w cmd) as [rc w']. cbn [fst snd].
  destruct (rc =? 0)%Z; reflexivity.
Qed.

(** X10: a conversion tool that exits with a non-zero status ends the pass:
    the loop raises [OasisException] carrying the [CalledProcessError] with
    that status and the command [tool < csv > bin], and no tool is run for
    the members after it. *)
Theorem failed_conversion_ends_pass
        (csv_directory bin_directory : string) (before after_ : list input_file)
        (f : input_file) (w0 w : world) :
  let pass l := exec (for_each l (convert_input_file csv_directory bin_directory)) w0 in
  let cmd := conversion_cmd csv_directory bin_directory f in
  returns (pass before) -> final (pass before) = w ->
  FS.exists_ w (csv_of csv_directory (name f)) = true ->
  fst (FS.shell w cmd) ≠ 0%Z ->
  result (pass (before ++ f :: after_))
  = inl (OasisExceptionFrom (CalledProcessError (fst (FS.shell w cmd)) cmd))
  ∧ final (pass (before ++ f :: after_)) = snd (FS.shell w cmd)
  ∧ tool_runs (calls (pass (before ++ f :: after_)))
    = tool_runs (calls (pass before)) ++ [cmd].
Proof.
  intros pass cmd Hret Hw Hcsv Hrc. unfold pass in *.
  rewrite exec_for_each_app. unfold after, returns in *.
  destruct (result (exec (for_each before _) w0)) as [e|[]]; [done|].
  rewrite Hw, exec_for_each_cons, exec_convert_present by done. fold cmd.
  destruct (Z.eqb_spec (fst (FS.shell w cmd)) 0) as [|_]; [done|].
  cbn [result calls final]. repeat split.
  unfold tool_runs. by rewrite omap_app.
Qed.

Lemma failed_conversion_ends_pass_witness :
  result (exec (for_each (viewvalues Sample.loc_acc_cov) (convert_input_file "/csv" "/bin"))
               MoreWorlds.failing_tools)
  = inl (OasisExceptionFrom (CalledProcessError 3 "T < /csv/loc.csv > /bin/loc.bin")).
Proof.
  refine (proj1 (failed_conversion_ends_pass
                   "/csv" "/bin" [] (tail (viewvalues Sample.loc_acc_cov))
                   (InputFile "loc" "gul" "T")
                   MoreWorlds.failing_tools MoreWorlds.failing_tools _ _ _ _)).
  - exact I.
  - reflexivity.
  - vm_compute; reflexivity.
  - vm_compute; discriminate.
Defined.

Lemma tool_runs_Forall (P : string -> Prop) (cs : list call) :
  Forall (fun c => match c with subprocess_call cmd => P cmd | _ => True end) cs ->
  Forall P (tool_runs cs).
Proof.
  induction 1 as [|c cs Hc _ IH]; [constructor|].
  unfold tool_runs. destruct c; simpl; try done. by constructor.
Qed.

(** X11: the commands of a conversion pass are commands of registry members,
    [tool < csv_directory/name.csv > bin_directory/name.bin]; with [do_il]
    off, none of them is for a member of type ['il']. *)
Theorem pass_runs_registry_tools
        (INPUT_FILES : registry) (csv_directory bin_directory : string) (do_il : bool)
        (w : world) :
  Forall (conversion_of INPUT_FILES csv_directory bin_directory do_il)
         (tool_runs (calls (exec (_create_set_of_binary_files
                                    INPUT_FILES csv_directory bin_directory do_il) w))).
Proof.
  apply tool_runs_Forall, only_calls_exec. unfold _create_set_of_binary_files.
  simpl. split; [done|]. intros b.
  apply only_calls_bind.
  { destruct (negb b); simpl; [|done]. split; [done|]. by intros [e|[]]. }
  intros _. apply only_calls_for_each. intros f Hf.
  assert (Hconv : conversion_of INPUT_FILES csv_directory bin_directory do_il
                                (conversion_cmd csv_directory bin_directory f)).
  { exists f. destruct do_il; [by repeat split|].
    apply list_elem_of_filter in Hf as [Htype Hf]. split; [done|]. split; [|done].
    intros _ Heq. rewrite Heq in Htype. by apply Is_true_true in Htype. }
  unfold convert_input_file. simpl. split; [done|]. intros [|]; simpl; [|done].
  split; [exact Hconv|]. intros rc. by destruct (rc =? 0)%Z.
Qed.

(** ** What the preparation steps raise *)

Lemma wrap_OSError_result {A : Type} (m : prog A) (w : world) :
  result (exec (try_except m wrap_OSError) w)
  = match result (exec m w) with inl e => inl (wrapped e) | inr a => inr a end.
Proof.
  rewrite exec_try_except.
  destruct (result (exec m w)) as [e|a] eqn:E; [|by rewrite E].
  destruct e as [[n p|p|s|rc cmd]|msg|c]; simpl; by rewrite ?E.
Qed.

Lemma wrapped_not_OSError (e : exn) (n : errno) (p : string) :
  wrapped e ≠ Raised (OSError n p).
Proof. by destruct e as [[]| |]. Qed.

(** X12: neither [prepare_model_run_directory] nor
    [prepare_model_run_inputs] lets an [OSError] out: whatever the arguments
    and the file system, the result is never a bare [OSError] (it comes out
    as [OasisException]). *)
Theorem preparation_never_raises_OSError
        (run_dir_path : string) (oasis_files_src_path : option string) (ri : bool)
        (analysis_settings_json_src_file_path model_data_src_path inputs_archive : option string)
        (analysis_settings : gmap string (gmap string string))
        (w : world) (n : errno) (p : string) :
  result (exec (prepare_model_run_directory run_dir_path oasis_files_src_path ri
                  analysis_settings_json_src_file_path model_data_src_path inputs_archive) w)
  ≠ inl (Raised (OSError n p))
  ∧ result (exec (prepare_model_run_inputs analysis_settings run_dir_path ri) w)
    ≠ inl (Raised (OSError n p)).
Proof.
  unfold prepare_model_run_directory, prepare_model_run_inputs.
  rewrite !wrap_OSError_result.
  split.
  - destruct (result (exec _ w)) as [e|[]]; [|done].
    intros [= H]. by apply wrapped_not_OSError in H.
  - destruct (result (exec _ w)) as [e|[]]; [|done].
    intros [= H]. by apply wrapped_not_OSError in H.
Qed.

(** X13: when the inputs archive cannot be opened, the run directory is
    left with its four subdirectories and nothing else is done: the calls
    are those making [fifo], [output], [static], [work] and the attempt to
    open the archive, whatever the other arguments.  A missing archive
    ([OSError]) comes out as [OasisException]; a file that is no tar archive
    comes out as [tarfile.ReadError], not wrapped. *)
Theorem unreadable_archive_stops_preparation
        (run_dir_path archive : string) (oasis_files_src_path : option string) (ri : bool)
        (analysis_settings_json_src_file_path model_data_src_path : option string)
        (w w1 : world) (cs : list call) (c : cause) :
  archive ≠ "" ->
  exec (make_skeleton run_dir_path) w = Outcome cs (inr tt) w1 ->
  FS.tar_open w1 archive = inl c ->
  exec (prepare_model_run_directory run_dir_path oasis_files_src_path ri
          analysis_settings_json_src_file_path model_data_src_path (Some archive)) w
  = Outcome (cs ++ [tarfile_open archive]) (inl (wrapped (Raised c))) w1.
Proof.
  intros Hne Hskel Hopen. unfold prepare_model_run_directory.
  unfold make_skeleton in Hskel. rewrite exec_try_except.
  match goal with
  | |- context [exec ?m w] =>
      assert (Hbody : exec m w = Outcome (cs ++ [tarfile_open archive]) (inl (Raised c)) w1)
  end.
  { rewrite (exec_bind_known _ _ _ _ _ _ Hskel).
    unfold truthy at 1. destruct (String.eqb_spec archive "") as [|_]; [done|].
    rewrite exec_bind, (exec_bind (tar_open archive)). unfold after.
    cbn [exec tar_open handle fst snd calls result final]. by rewrite Hopen. }
  rewrite Hbody. cbn [result calls final].
  destruct c as [n p|p|s|rc cmd]; cbn [wrap_OSError wrapped exec calls result final];
    by rewrite ?app_nil_r.
Qed.

Lemma unreadable_archive_stops_preparation_witness :
  result (exec (prepare_model_run_directory "/run" (Some "/src") false None None
                  (Some "/inputs.tar")) MoreWorlds.not_a_tar)
  = inl (Raised (ReadError "/inputs.tar")).
Proof.
  set (o := exec (make_skeleton "/run") MoreWorlds.not_a_tar).
  rewrite (unreadable_archive_stops_preparation
             "/run" "/inputs.tar" (Some "/src") false None None
             MoreWorlds.not_a_tar (final o) (calls o) (ReadError "/inputs.tar")).
  - reflexivity.
  - discriminate.
  - vm_compute; reflexivity.
  - vm_compute; reflexivity.
Defined.

(** ** Static inputs already in place *)

(** X15: when [input/] already holds [events.bin], [returnperiods.bin] and
    [occurrence.bin], and [periods.bin] is either absent from [static/] or
    present in [input/], [prepare_model_run_inputs] returns without changing
    anything, whatever the settings: it only tests paths for existence. *)
Theorem prepare_model_run_inputs_nothing_to_do
        (analysis_settings : gmap string (gmap string string)) (run_dir : string) (ri : bool)
        (w : world) :
  FS.exists_ w (input_bin run_dir "events") = true ->
  FS.exists_ w (input_bin run_dir "returnperiods") = true ->
  FS.exists_ w (input_bin run_dir "occurrence") = true ->
  (FS.exists_ w (os_path_join (os_path_join run_dir "static") "periods.bin") = true ->
   FS.exists_ w (input_bin run_dir "periods") = true) ->
  let o := exec (prepare_model_run_inputs analysis_settings run_dir ri) w in
  result o = inr tt ∧ final o = w
  ∧ Forall (fun c => ∃ p, c = os_path_exists p) (calls o).
Proof.
  intros He Hr Ho Hp o. subst o. unfold prepare_model_run_inputs.
  rewrite exec_try_except.
  rewrite (exec_bind_known _ _ _ _ _ _ (_prepare_input_bin_present _ _ _ _ _ _ He)).
  rewrite (exec_bind_known _ _ _ _ _ _ (_prepare_input_bin_present _ _ _ _ _ _ Hr)).
  rewrite (exec_bind_known _ _ _ _ _ _ (_prepare_input_bin_present _ _ _ _ _ _ Ho)).
  rewrite exec_bind, exec_exists_. unfold after. cbn [result calls final].
  destruct (FS.exists_ w (os_path_join (os_path_join run_dir "static") "periods.bin")).
  - rewrite (_prepare_input_bin_present _ _ _ _ _ _ (Hp eq_refl)).
    cbn [result calls final app]. repeat split.
    repeat (constructor; [by eexists|]). constructor.
  - cbn [exec result calls final app]. repeat split.
    repeat (constructor; [by eexists|]). constructor.
Qed.

Lemma prepare_model_run_inputs_nothing_to_do_witness :
  final (exec (prepare_model_run_inputs ∅ "/run" false) MoreWorlds.materialized)
  = MoreWorlds.materialized.
Proof.
  refine (proj1 (proj2 (prepare_model_run_inputs_nothing_to_do
                          ∅ "/run" false MoreWorlds.materialized _ _ _ _))).
  - vm_compute; reflexivity.
  - vm_compute; reflexivity.
  - vm_compute; reflexivity.
  - vm_compute; discriminate.
Defined.

(** ** Copying the source files *)





(** ** Preparing a run directory a second time *)

Lemma walk_with_creat (t : node) (follow : bool) via via' :
  (∀ s td r, via s td = Some r -> via' s td = Some r) ->
  ∀ todo stack r,
    FS.walk_with t follow false via stack todo = Some r ->
    FS.walk_with t follow true via' stack todo = Some r.
Proof.
  intros Hvia. induction todo as [|c rest IH]; intros stack r; [done|].
  rewrite !walk_with_cons.
  destruct (kind_at t stack) as [[| |target]|]; try done.
  destruct (String.eqb c "" || String.eqb c "."); [by apply IH|].
  destruct (String.eqb c ".."); [by apply IH|].
  destruct (kind_at t (stack ++ [c])) as [[| |target]|]; try done.
  - by apply IH.
  - by apply IH.
  - destruct (FS.is_nil rest && negb follow); [done|]. by apply Hvia.
  - by rewrite andb_false_r.
Qed.

Lemma walk_creat (t : node) (follow : bool) (links : nat) :
  ∀ stack todo r,
    FS.walk links t follow false stack todo = Some r ->
    FS.walk links t follow true stack todo = Some r.
Proof.
  induction links as [|l IH]; intros stack todo r; simpl.
  - by apply walk_with_creat.
  - apply walk_with_creat. apply IH.
Qed.

Lemma lexists_resolve (w : world) (p : string) :
  FS.lexists w p = true ->
  ∃ q n, FS.resolve w false true p = Some q ∧ FS.lookup_phys q (FS.tree w) = Some n.
Proof.
  unfold FS.lexists, FS.lstat.
  destruct (FS.resolve w false false p) as [q|] eqn:Hq; [|done]. simpl.
  destruct (FS.lookup_phys q (FS.tree w)) as [n|] eqn:Hn; [|done]. intros _.
  exists q, n. split; [|done]. unfold FS.resolve in *.
  destruct (String.eqb p ""); [done|]. by apply walk_creat.
Qed.

(** a link cannot be made where something is *)
Lemma symlink_onto_existing (w : world) (src dst : string) :
  FS.lexists w dst = true -> ∃ c, FS.symlink w src dst = (inl c, w).
Proof.
  intros (q & n & Hq & Hn)%lexists_resolve. unfold FS.symlink.
  destruct (negb (symlinks w)); [by eauto|].
  destruct (String.eqb src ""); [by eauto|].
  rewrite Hq, Hn. by eauto.
Qed.

(** nor a tree copied there *)
Lemma copytree_onto_existing (w : world) (src dst : string) :
  FS.lexists w dst = true -> ∃ n p, FS.copytree w src dst = (inl (OSError n p), w).
Proof.
  intros H. unfold FS.copytree. rewrite H.
  destruct (FS.stat w src) as [[d|m|target]|]; by eauto.
Qed.

(** X16: when [static/<name>] already exists for the first model-data entry
    found, as it does when the run directory was prepared before, the
    preparation fails with [OasisException]: the link attempt raises, the
    fallback [shutil.copytree] raises an [OSError] since its destination
    exists, no later entry is tried, and the file system is left as it was
    once the directories were laid out. *)
Theorem existing_static_entry_stops_preparation
        (run_dir_path model_data_src_path : string) (ri : bool) (w w1 : world)
        (layout_calls : list call) (path : string) (paths : list string) :
  model_data_src_path ≠ "" ->
  exec (make_layout run_dir_path ri) w = Outcome layout_calls (inr tt) w1 ->
  result (exec (glob (os_path_join model_data_src_path "*")) w1) = inr (path :: paths) ->
  let dst := os_path_join (os_path_join run_dir_path "static") (os_path_basename path) in
  FS.lexists w1 dst = true ->
  let o := exec (prepare_model_run_directory run_dir_path None ri None
                                             (Some model_data_src_path) None) w in
  (∃ n p, result o = inl (OasisExceptionFrom (OSError n p)))
  ∧ calls o = layout_calls
              ++ calls (exec (glob (os_path_join model_data_src_path "*")) w1)
              ++ [os_symlink path dst; shutil_copytree model_data_src_path dst]
  ∧ final o = w1.
Proof.
  intros Hne Hlayout Hglob dst Hdst o.
  destruct (symlink_onto_existing w1 path dst Hdst) as [c Hlink].
  destruct (copytree_onto_existing w1 model_data_src_path dst Hdst) as (n & p & Hcopy).
  assert (Hw1 : final (exec (glob (os_path_join model_data_src_path "*")) w1) = w1)
    by apply read_calls_keep_world, iglob_reads.
  subst o. unfold prepare_model_run_directory. rewrite exec_try_except.
  match goal with
  | |- context [exec ?m w] =>
      assert (Hbody : exec m w
                      = Outcome (layout_calls
                                 ++ calls (exec (glob (os_path_join model_data_src_path "*")) w1)
                                 ++ [os_symlink path dst;
                                     shutil_copytree model_data_src_path dst])
                                (inl (Raised (OSError n p))) w1)
  end.
  { unfold make_layout, make_skeleton in Hlayout. rewrite exec_bind in Hlayout.
    rewrite exec_bind. unfold after in *. cbn [truthy].
    destruct (exec (for_each ["fifo"; "output"; "static"; "work"] _) w)
      as [cs0 [e|[]] w0]; cbn [calls result final] in *; [done|].
    rewrite exec_bind. unfold after.
    destruct (exec (if negb ri then _ else _) w0) as [cs1 [e|[]] w1'];
      cbn [calls result final] in *; [done|].
    injection Hlayout as <- <-.
    unfold truthy. destruct (String.eqb_spec model_data_src_path "") as [|_]; [done|].
    cbn [bind exec calls result final app].
    rewrite exec_bind. unfold after. rewrite Hglob, Hw1.
    rewrite exec_for_each_cons, exec_try_except. unfold after.
    fold dst. cbn [symlink exec handle]. rewrite Hlink.
    cbn [fst snd lift exec calls result final copytree handle]. rewrite Hcopy.
    cbn [fst snd lift exec calls result final app].
    by rewrite <- !app_assoc. }
  rewrite Hbody. cbn [result calls final wrap_OSError exec].
  rewrite app_nil_r. repeat split. by eauto.
Qed.

Lemma existing_static_entry_stops_preparation_witness :
  final (exec (prepare_model_run_directory "/run" None false None (Some "/model") None)
              MoreWorlds.prepared_before)
  = final (exec (make_layout "/run" false) MoreWorlds.prepared_before).
Proof.
  set (o := exec (make_layout "/run" false) MoreWorlds.prepared_before).
  refine (proj2 (proj2 (existing_static_entry_stops_preparation
                          "/run" "/model" false MoreWorlds.prepared_before (final o) (calls o)
                          "/model/a" [] _ _ _ _))).
  - discriminate.
  - vm_compute; reflexivity.
  - vm_compute; reflexivity.
  - vm_compute; reflexivity.
Defined.

(** X17: when the source directory is the destination of the source files
    itself ([input/csv], or [input] when [ri] is set, as the same string),
    it is not listed and nothing is copied: the preparation only lays out
    the directories. *)
Theorem source_in_place_copies_nothing (run_dir_path : string) (ri : bool) (w : world) :
  let o := exec (prepare_model_run_directory
                   run_dir_path (Some (files_destpath run_dir_path ri)) ri None None None) w in
  let layout := exec (make_layout run_dir_path ri) w in
  calls o = calls layout ∧ final o = final layout ∧ (returns o <-> returns layout).
Proof.
  cbv zeta. unfold prepare_model_run_directory.
  match goal with
  | |- context [exec (try_except ?m _) w] =>
      destruct (exec_wrap_OSError m w) as (Hc & Hf & Hr); cbv zeta in Hc, Hf, Hr;
      rewrite Hc, Hf, Hr; clear Hc Hf Hr;
      assert (Hbody : exec m w = exec (make_layout run_dir_path ri) w)
  end.
  { unfold make_layout, make_skeleton. rewrite !(exec_bind (for_each _ _)).
    unfold after. destruct (result (exec (for_each _ _) w)) as [e|[]]; [done|].
    unfold truthy. fold (files_destpath run_dir_path ri).
    destruct (String.eqb (files_destpath run_dir_path ri) "");
      [|rewrite String.eqb_refl; cbn [negb]]; by rewrite exec_then_nothing. }
  by rewrite Hbody.
Qed.

(** ** The output directory of a conversion *)

Lemma mkdir_failed (w w' : world) (p : string) (c : cause) :
  FS.mkdir w p = (inl c, w') -> w' = w ∧ ∃ n q, c = OSError n q.
Proof.
  unfold FS.mkdir. destruct (FS.resolve w false true p) as [q|].
  - destruct (FS.lookup_phys q (FS.tree w)); [|done]. intros [= <- <-]. by eauto.
  - intros [= <- <-]. by eauto.
Qed.

(** X18: when the output directory does not exist and [os.mkdir] cannot
    make it (its parent is missing, or the name is a dangling link),
    [create_binary_files] raises that [OSError] as it is, not as
    [OasisException]; no conversion tool is run and the file system is
    unchanged. *)
Theorem output_directory_failure_is_OSError
        (INPUT_FILES : registry) (csv_directory bin_directory : string)
        (do_il do_ri : bool) (w w' : world) (c : cause) :
  let bindir := abspath_in w bin_directory in
  FS.exists_ w bindir = false ->
  FS.mkdir w bindir = (inl c, w') ->
  let o := exec (create_binary_files INPUT_FILES csv_directory bin_directory do_il do_ri) w in
  result o = inl (Raised c) ∧ (∃ n p, c = OSError n p)
  ∧ final o = w ∧ tool_runs (calls o) = [].
Proof.
  intros bindir Hex Hmk o. destruct (mkdir_failed _ _ _ _ Hmk) as [-> Hc].
  subst o. unfold create_binary_files.
  rewrite (exec_bind_known _ _ _ _ _ _ (exec_os_path_abspath csv_directory w)).
  rewrite (exec_bind_known _ _ _ _ _ _ (exec_os_path_abspath bin_directory w)).
  fold bindir. cbv zeta. rewrite exec_bind. unfold _create_set_of_binary_files, after.
  rewrite (exec_bind_known _ _ _ _ _ _ (exec_exists_ bindir w)). rewrite Hex.
  cbn [negb]. rewrite exec_bind. unfold after.
  cbn [mkdir exec handle]. rewrite Hmk.
  cbn [fst snd lift exec calls result final app].
  repeat split; [done|].
  by destruct (Str.startswith "/" csv_directory), (Str.startswith "/" bin_directory).
Qed.

Lemma output_directory_failure_is_OSError_witness :
  result (exec (create_binary_files Sample.loc_acc_cov "/in" "/out/bin" false false)
               MoreWorlds.csv_only)
  = inl (Raised (OSError ENOENT "/out/bin")).
Proof.
  refine (proj1 (output_directory_failure_is_OSError
                   Sample.loc_acc_cov "/in" "/out/bin" false false
                   MoreWorlds.csv_only MoreWorlds.csv_only (OSError ENOENT "/out/bin") _ _)).
  - vm_compute; reflexivity.
  - vm_compute; reflexivity.
Defined.
